(** * honeybee-energy: the SQLite result parser ([honeybee_energy/result/sql.py])

    A shallow embedding of [SQLiteResult]: the run-period decoder, the
    location extractor and the time-series reconstruction, followed by the
    properties of the specification that concern them. *)

From Stdlib Require Import ZArith Floats Ascii String.
From stdpp Require Import base option list strings gmap.

Local Open Scope string_scope.
Local Open Scope nat_scope.

(** ** Python results

    A Python call either returns a value or raises; the exceptions that the
    parser can raise by itself are enumerated. *)

Inductive exn : Set :=
| IndexError
| TypeError
| ValueError
| ZeroDivisionError.

Inductive result (A : Type) : Type :=
| Ok (a : A)
| Raise (e : exn).

Arguments Ok {A} a.
Arguments Raise {A} e.

Definition bind {A B : Type} (r : result A) (k : A -> result B) : result B :=
  match r with
  | Ok a => k a
  | Raise e => Raise e
  end.

Notation "'let*' x ':=' r 'in' k" := (bind r (fun x => k))
  (at level 10, x pattern, r at level 100, k at level 200).

(** ** Python built-ins used by the parser *)

Module Py.

(** [range(start, stop, step)] for a non-negative step; a zero step raises
    [ValueError]. The length is the one CPython computes. *)
Definition range (start stop step : nat) : result (list nat) :=
  match step with
  | O => Raise ValueError
  | S _ => Ok ((fun j => start + j * step) <$> seq 0 ((stop - start + step - 1) / step))
  end.

(** [l[i:j]] for non-negative bounds. *)
Definition slice {A : Type} (l : list A) (i j : nat) : list A :=
  take (j - i) (drop i l).

(** [l[:-k]] *)
Definition slice_to_neg {A : Type} (l : list A) (k : nat) : list A :=
  take (length l - k) l.

(** [l[i]] for a non-negative index. *)
Definition getitem {A : Type} (l : list A) (i : nat) : result A :=
  match l !! i with
  | Some x => Ok x
  | None => Raise IndexError
  end.

(** [l[-k]] for [k >= 1]. *)
Definition getitem_neg {A : Type} (l : list A) (k : nat) : result A :=
  if decide (1 <= k <= length l) then getitem l (length l - k) else Raise IndexError.

(** Subscripting the result of [fetchone()]: [None[i]] is a [TypeError]. *)
Definition subscriptable {A : Type} (row : option A) : result A :=
  match row with
  | Some r => Ok r
  | None => Raise TypeError
  end.

(** [zip] applied to the unpacked list [ls]: the tuples are lists here;
    the result stops with the shortest argument and is empty when there is
    no argument. *)
Fixpoint zip_star {A : Type} (ls : list (list A)) : list (list A) :=
  match ls with
  | [] => []
  | [l] => (fun x => [x]) <$> l
  | l :: ls' => zip_with cons l (zip_star ls')
  end.

(** [s.split(sep)] for a one-character separator: every occurrence splits,
    so the result is never empty and may hold empty tokens. *)
Fixpoint split (sep : ascii) (s : string) : list string :=
  match s with
  | EmptyString => [EmptyString]
  | String c s' =>
      if Ascii.eqb c sep then EmptyString :: split sep s'
      else match split sep s' with
           | [] => [String c EmptyString]
           | w :: ws => String c w :: ws
           end
  end.

(** [sep.join(l)] *)
Fixpoint join (sep : string) (l : list string) : string :=
  match l with
  | [] => EmptyString
  | [x] => x
  | x :: l' => x +:+ sep +:+ join sep l'
  end.

(** [needle in hay] for two strings: substring test. *)
Fixpoint str_contains (needle hay : string) : bool :=
  String.prefix needle hay ||
  match hay with
  | EmptyString => false
  | String _ hay' => str_contains needle hay'
  end.

(** [x in names] for a tuple or list of strings: membership of an element. *)
Definition seq_contains (x : string) (names : list string) : bool :=
  existsb (String.eqb x) names.

(** [int(a / b)] on integers under [from __future__ import division]: the
    quotient is a float and [int] truncates it toward zero. For the
    dividend 60 of the parser the float quotient is on the same side of
    every integer as the exact one, so the result is the truncated integer
    quotient. *)
Definition int_truediv (a b : Z) : result Z :=
  if (b =? 0)%Z then Raise ZeroDivisionError else Ok (a ÷ b)%Z.

End Py.

(** ** The ladybug objects the parser builds

    [ladybug] is an external package: the parser only calls the constructors
    below and reads back [month], [day] and [hour]. An analysis period, a
    location, a header and a data collection are represented by the
    arguments the parser hands to their constructors. The checks the
    library makes on these arguments (the admissible timesteps, the numeric
    fields of a location, the data type of a header, the number of values of
    a collection against its period) are not part of the parser and are not
    represented: a result of the parser below is the object the parser asks
    the library for, and the properties proved of it hold of every object
    the library does build. *)

Module Ladybug.

(** [ladybug.dt.DateTime]: a date and a time in the reference year 2017
    (365 days), the year of a [DateTime] built without [leap_year]. *)
Record DateTime : Set := mkDateTime {
  month : Z;
  day : Z;
  hour : Z;
  minute : Z
}.

Definition month_lengths : list Z := [31; 28; 31; 30; 31; 30; 31; 31; 30; 31; 30; 31]%Z.

Definition days_in_month (m : Z) : Z :=
  if (1 <=? m)%Z then default 0%Z (month_lengths !! Z.to_nat (m - 1)) else 0%Z.

(** [DateTime(month, day, hour)]: [datetime] refuses a date that does not
    exist and the library re-raises it as a [ValueError]. *)
Definition new_DateTime (month day hour : Z) : result DateTime :=
  if ((1 <=? month) && (month <=? 12) && (1 <=? day) && (day <=? days_in_month month)
      && (0 <=? hour) && (hour <=? 23))%Z
  then Ok (mkDateTime month day hour 0)
  else Raise ValueError.

(** Days of the year before the first day of month [m]. *)
Definition days_before (m : Z) : Z :=
  foldr Z.add 0%Z (take (Z.to_nat (m - 1)) month_lengths).

Definition minute_of_year (dt : DateTime) : Z :=
  ((days_before (month dt) + (day dt - 1)) * 1440 + hour dt * 60 + minute dt)%Z.

(** Month and day of the [d]-th day (from 0) counted from the first day of
    month [m], the remaining months having lengths [months]. *)
Fixpoint month_day (months : list Z) (m d : Z) : Z * Z :=
  match months with
  | [] => (m, d + 1)%Z
  | len :: rest => if (d <? len)%Z then (m, d + 1)%Z else month_day rest (m + 1)%Z (d - len)%Z
  end.

(** [dt.add_minute(n)]: the date [n] minutes later, read again as a date of
    the reference year (the year is dropped, so the minute of the year wraps
    around 525600). *)
Definition add_minute (dt : DateTime) (n : Z) : DateTime :=
  let moy := ((minute_of_year dt + n) mod 525600)%Z in
  let md := month_day month_lengths 1 (moy / 1440)%Z in
  mkDateTime md.1 md.2 ((moy mod 1440) / 60)%Z (moy mod 60)%Z.

(** [ladybug.analysisperiod.AnalysisPeriod]: the eight constructor
    arguments, in order. The library refuses a timestep that is not a
    divisor of 60 it knows and replaces a timestep of 0; the properties
    below do not rely on the [timestep] field. *)
Record AnalysisPeriod : Set := mkAnalysisPeriod {
  st_month : Z;
  st_day : Z;
  st_hour : Z;
  end_month : Z;
  end_day : Z;
  end_hour : Z;
  timestep : Z;
  is_leap_year : bool
}.

(** [ladybug.location.Location] with the keyword arguments the parser
    passes, kept as the strings read from the table. *)
Record Location : Set := mkLocation {
  city : string;
  source : string;
  station_id : string;
  latitude : string;
  longitude : string;
  time_zone : string;
  elevation : string
}.

(** [ladybug.header.Header(data_type, unit, analysis_period, metadata)];
    the data type is named by its key in [ladybug.datatype.TYPESDICT] and is
    [None] when no key was found. *)
Record Header : Type := mkHeader {
  data_type : option string;
  unit : string;
  analysis_period : AnalysisPeriod;
  metadata : gmap string string
}.

(** The three collection classes; the day or month index of the last two is
    read by the library from the header's analysis period. *)
Inductive DataCollection : Type :=
| HourlyContinuousCollection (head : Header) (values : list float)
| DailyCollection (head : Header) (values : list float)
| MonthlyCollection (head : Header) (values : list float).

Definition header (c : DataCollection) : Header :=
  match c with
  | HourlyContinuousCollection h _ | DailyCollection h _ | MonthlyCollection h _ => h
  end.

Definition values (c : DataCollection) : list float :=
  match c with
  | HourlyContinuousCollection _ v | DailyCollection _ v | MonthlyCollection _ v => v
  end.

End Ladybug.

Import Ladybug.

(** ** The result file

    The parser reads the file through four queries; their answers stand for
    the file. *)

(** [output_name] is one name or an array of names. *)
Inductive OutputName : Set :=
| Name (s : string)
| Names (l : list string).

(** A row of [ReportDataDictionary], with the columns the parser reads:
    [row[0]], [row[3]], [row[5]], [row[6]] and [row[-1]]. *)
Record DictionaryRow : Set := mkDictionaryRow {
  ReportDataDictionaryIndex : Z;
  IndexGroup : string;
  KeyValue : string;
  OutputVariable : string;
  Units : string
}.

(** A row of [Time], with the columns the parser reads: [row[1]], [row[2]],
    [row[3]], [row[7]] and [row[8]]. *)
Record TimeRow : Set := mkTimeRow {
  Year : Z;
  Month : Z;
  Day : Z;
  Interval : Z;
  IntervalType : Z
}.

(** A row of [SELECT Value, TimeIndex FROM ReportData]. *)
Definition DataRow (V : Type) : Type := (V * Z)%type.

Record SQLiteFile : Type := mkSQLiteFile {
  (* [SELECT * FROM ReportDataDictionary WHERE Name ...], [fetchall] *)
  select_dictionary : OutputName -> list DictionaryRow;
  (* [SELECT Value, TimeIndex FROM ReportData WHERE
      ReportDataDictionaryIndex ...], [fetchall] *)
  select_data : list Z -> list (DataRow float);
  (* [SELECT * FROM Time WHERE TimeIndex=?], [fetchone] *)
  select_time : Z -> option TimeRow;
  (* [SELECT Value FROM TabularDataWithStrings WHERE TableName=?],
      [fetchall], each one-column row given by its value *)
  select_tabular : string -> list string
}.

(** The [SQLiteResult] object: the file behind [file_path] and the cached
    location. *)
Record SQLiteResult : Type := mkSQLiteResult {
  file_path : SQLiteFile;
  _location : option Location
}.

(** [SQLiteResult.__init__] *)
Definition __init__ (file : SQLiteFile) : SQLiteResult := mkSQLiteResult file None.

(** ** Time-series reconstruction *)

(** [SQLiteResult._clean_timeseries_data] *)
Definition _clean_timeseries_data {V : Type} (data : list (DataRow V)) (n_lists : nat)
  : result (list (list V)) :=
  let* starts := Py.range 0 (length data) n_lists in
  let all_values :=
    (fun i => fst <$> Py.slice data i (i + n_lists)) <$> starts in
  Ok (Py.zip_star all_values).

(** [SQLiteResult._clean_and_convert_timeseries_data] *)
Definition _clean_and_convert_timeseries_data (data : list (DataRow float)) (n_lists : nat)
  : result (list (list float)) :=
  let* starts := Py.range 0 (length data) n_lists in
  let all_values :=
    (fun i => (fun val => (fst val / 3600000)%float) <$> Py.slice data i (i + n_lists))
      <$> starts in
  Ok (Py.zip_star all_values).

(** ** Location *)

(** [SQLiteResult.tablular_data_by_name] *)
Definition tablular_data_by_name (self : SQLiteResult) (table_name : string) : list string :=
  select_tabular (file_path self) table_name.

(** [SQLiteResult._extract_location]: returns the object with [_location]
    set, or unchanged when the table is empty. *)
Definition _extract_location (self : SQLiteResult) : result SQLiteResult :=
  let general := tablular_data_by_name self "General" in
  match general with
  | [] => Ok self
  | _ =>
      let* row2 := Py.getitem general 2 in
      let split_id := Py.split " " row2 in
      let city := Py.join " " (Py.slice_to_neg split_id 2) in
      let* source := Py.getitem_neg split_id 2 in
      let* last := Py.getitem_neg split_id 1 in
      let* station_id := Py.getitem_neg (Py.split "=" last) 1 in
      let* latitude := Py.getitem general 3 in
      let* longitude := Py.getitem general 4 in
      let* time_zone := Py.getitem general 6 in
      let* elevation := Py.getitem general 5 in
      Ok (mkSQLiteResult (file_path self)
            (Some (mkLocation city source station_id latitude longitude time_zone elevation)))
  end.

(** The [location] property: the location and the object after the call. *)
Definition location (self : SQLiteResult) : result (option Location * SQLiteResult) :=
  match _location self with
  | Some loc => Ok (Some loc, self)
  | None => let* self' := _extract_location self in Ok (_location self', self')
  end.

(** ** Run period and reporting frequency *)

Definition _interval_codes : list string :=
  ["Timestep"; "Hourly"; "Daily"; "Monthly"; "Annual"].

(** [reporting_frequency] is an [int] or one of the names above. *)
Inductive ReportingFrequency : Set :=
| Steps (n : Z)
| Named (s : string).

Definition is_named (name : string) (f : ReportingFrequency) : bool :=
  match f with
  | Steps _ => false
  | Named s => String.eqb s name
  end.

(** Lines 196-204 of [_extract_run_period]: [reporting_frequency],
    [aper_timestep] and [min_per_step] from the start record. *)
Definition interval_of (start : TimeRow) : result (ReportingFrequency * Z * Z) :=
  let interval_typ := IntervalType start in
  if (interval_typ <=? 1)%Z then
    let min_per_step := Interval start in
    let* aper_timestep := Py.int_truediv 60 min_per_step in
    Ok (Steps aper_timestep, aper_timestep, min_per_step)
  else
    let* reporting_frequency := Py.getitem _interval_codes (Z.to_nat interval_typ) in
    Ok (Named reporting_frequency, 1%Z, 60%Z).

(** [SQLiteResult._extract_run_period] *)
Definition _extract_run_period (self : SQLiteResult) (st_time end_time : Z)
  : result (AnalysisPeriod * ReportingFrequency) :=
  let start := select_time (file_path self) st_time in
  let end_ := select_time (file_path self) end_time in
  let* start := Py.subscriptable start in
  let* (reporting_frequency, aper_timestep, min_per_step) := interval_of start in
  let leap_year := if (Year start mod 4 =? 0)%Z then true else false in
  let* st_date :=
    if is_named "Monthly" reporting_frequency
    then new_DateTime (Month start) 1 0
    else new_DateTime (Month start) (Day start) 0 in
  let* end_ := Py.subscriptable end_ in
  let* end_date := new_DateTime (Month end_) (Day end_) 0 in
  let end_date := add_minute end_date (1440 - min_per_step) in
  let run_period :=
    mkAnalysisPeriod (month st_date) (day st_date) (hour st_date)
      (month end_date) (day end_date) (hour end_date) aper_timestep leap_year in
  Ok (run_period, reporting_frequency).

(** ** Data collections *)

(** What [data_collections_by_output_name] returns: data collections, or
    for annual data the bare value sequences. *)
Inductive Output : Type :=
| Collections (data_colls : list DataCollection)
| Values (all_values : list (list float)).

Section DataCollections.

(** [ladybug.datatype.UNITS]: for each data type key, in the order of the
    dictionary, the units of that type. *)
Variable UNITS : list (string * list string).

(** [SQLiteResult._data_type_from_unit] *)
Definition _data_type_from_unit (from_unit : string) : option string :=
  fst <$> List.find (fun kv => Py.seq_contains from_unit kv.2) UNITS.

(** ['Surface' in output_name] *)
Definition surface_in (output_name : OutputName) : bool :=
  match output_name with
  | Name s => Py.str_contains "Surface" s
  | Names l => Py.seq_contains "Surface" l
  end.

(** Lines 105-108 of [data_collections_by_output_name]: the header of one
    dictionary row. *)
Definition header_of_row (output_name : OutputName) (data_type : option string)
    (units : string) (run_period : AnalysisPeriod) (row : DictionaryRow) : Header :=
  let obj_type := if negb (surface_in output_name) then IndexGroup row else "Surface" in
  let metadata : gmap string string :=
    <[obj_type := KeyValue row]> {["type" := OutputVariable row]} in
  mkHeader data_type units run_period metadata.

(** [SQLiteResult.data_collections_by_output_name] *)
Definition data_collections_by_output_name (self : SQLiteResult) (output_name : OutputName)
  : result Output :=
  let header_rows := select_dictionary (file_path self) output_name in
  match header_rows with
  | [] => Ok (Collections [])
  | row0 :: _ =>
      let rel_indices := ReportDataDictionaryIndex <$> header_rows in
      let data := select_data (file_path self) rel_indices in
      let* first := Py.getitem data 0 in
      let* last := Py.getitem_neg data 1 in
      let st_time := first.2 in
      let end_time := last.2 in
      let* (run_period, reporting_frequency) := _extract_run_period self st_time end_time in
      let units := if negb (String.eqb (Units row0) "J") then Units row0 else "kWh" in
      let data_type := _data_type_from_unit units in
      let headers := header_of_row output_name data_type units run_period <$> header_rows in
      let n_lists := length header_rows in
      let* all_values :=
        if String.eqb units "kWh"
        then _clean_and_convert_timeseries_data data n_lists
        else _clean_timeseries_data data n_lists in
      match reporting_frequency with
      | Steps _ => Ok (Collections (zip_with HourlyContinuousCollection headers all_values))
      | Named f =>
          if String.eqb f "Hourly"
          then Ok (Collections (zip_with HourlyContinuousCollection headers all_values))
          else if String.eqb f "Daily"
          then Ok (Collections (zip_with DailyCollection headers all_values))
          else if String.eqb f "Monthly"
          then Ok (Collections (zip_with MonthlyCollection headers all_values))
          else Ok (Values all_values)
      end
  end.

End DataCollections.

(** ** Vocabulary of the properties *)

(** [all_values] after the loop over [c] blocks of [n] rows, [f] being
    what the comprehension keeps of a row. *)
Definition blocks {V W : Type} (f : DataRow V → W) (data : list (DataRow V))
    (n c : nat) : list (list W) :=
  (λ i, f <$> Py.slice data i (i + n)) <$> ((λ j, 0 + j * n) <$> seq 0 c).

(** [data] is rebuilt as [N] sequences of [k] values, the [i]-th sequence
    holding the values of the rows [i], [i + N], [i + 2N], ... *)
Definition reconstructs {V : Type} (data : list (DataRow V)) (N k : nat) : Prop :=
  ∃ seqs, _clean_timeseries_data data N = Ok seqs ∧
    length seqs = N ∧
    ∀ i, i < N →
      ∃ s, seqs !! i = Some s ∧ length s = k ∧
           ∀ j, j < k → s !! j = fst <$> data !! (i + j * N).

(** The unit label of the headers: the unit of the first dictionary row,
    with Joules relabelled. *)
Definition header_units (row0 : DictionaryRow) : string :=
  if negb (String.eqb (Units row0) "J") then Units row0 else "kWh".

(** The reconstruction chosen for a unit label. *)
Definition reconstruction (units : string) (data : list (DataRow float)) (n_lists : nat)
  : result (list (list float)) :=
  if String.eqb units "kWh"
  then _clean_and_convert_timeseries_data data n_lists
  else _clean_timeseries_data data n_lists.

(** The minutes per step the decoder works with. *)
Definition minutes_per_step (start : TimeRow) : Z :=
  if (IntervalType start <=? 1)%Z then Interval start else 60%Z.

(** ** Sample result files *)

(** A file whose dictionary query answers [rows] and whose data query
    answers [data], with the given [Time] records by index and the given
    [General] table. *)
Definition result_file (rows : list DictionaryRow) (data : list (DataRow float))
    (times : list (Z * TimeRow)) (general : list string) : SQLiteFile :=
  mkSQLiteFile
    (λ _, rows)
    (λ _, data)
    (λ i, snd <$> List.find (λ kv, (kv.1 =? i)%Z) times)
    (λ name, if String.eqb name "General" then general else []).

Definition sample_UNITS : list (string * list string) :=
  [("Energy", ["kWh"; "kBtu"; "Wh"; "Btu"; "MMBtu"; "J"; "kJ"; "MJ"; "GJ"]);
   ("Temperature", ["C"; "F"; "K"])].

(** Hourly values of January 2016 for one zone. *)
Definition hourly_file : SQLiteFile :=
  result_file
    [mkDictionaryRow 7 "Zone" "ROOM_1" "Zone Mean Air Temperature" "C"]
    [(21%float, 1%Z); (22%float, 2%Z)]
    [(1, mkTimeRow 2016 1 1 60 1); (2, mkTimeRow 2016 1 31 60 1)]%Z
    [].

(** Monthly values from March to December 2017; the records carry the
    last day of their month. *)
Definition monthly_file : SQLiteFile :=
  result_file
    [mkDictionaryRow 9 "Zone" "ROOM_1" "Zone Ideal Loads Supply Air Total Heating Energy" "J"]
    [(3600000%float, 1%Z); (7200000%float, 2%Z)]
    [(1, mkTimeRow 2017 3 31 60 3); (2, mkTimeRow 2017 12 31 60 3)]%Z
    [].

(** Values every quarter of an hour on the first of July 1900. *)
Definition quarter_hourly_file : SQLiteFile :=
  result_file
    [mkDictionaryRow 3 "Zone" "ROOM_1" "Zone Mean Air Temperature" "C"]
    [(21%float, 1%Z); (22%float, 2%Z)]
    [(1, mkTimeRow 1900 7 1 15 0); (2, mkTimeRow 1900 7 1 15 0)]%Z
    [].

(** A [General] table as EnergyPlus writes it. *)
Definition chicago_general : list string :=
  ["EnergyPlus, Version 9.2.0"; "RUN PERIOD 1";
   "Chicago Ohare Intl Ap IL USA TMY3 WMO#=725300";
   "41.98"; "-87.92"; "201.00"; "-6.00"; "0.00"; "No"; "8760.00"].

Definition chicago_file : SQLiteFile := result_file [] [] [] chicago_general.

(** A table cut after its third row, and one whose row 2 is a single
    word. *)
Definition short_file : SQLiteFile :=
  result_file [] [] [] (take 3 chicago_general).

Definition one_word_file : SQLiteFile :=
  result_file [] [] []
    ["EnergyPlus, Version 9.2.0"; "RUN PERIOD 1"; "Chicago";
     "41.98"; "-87.92"; "201.00"; "-6.00"].

(** The [Time] records of the first and of the last hour of the first of
    January 2017, under the time indices 1 and 24. *)
Definition first_of_january : list (Z * TimeRow) :=
  [(1, mkTimeRow 2017 1 1 60 1); (24, mkTimeRow 2017 1 1 60 1)]%Z.

(** Two channels of one output name, the first in Joules and the second
    declared in degrees, with the 24 hourly values of one day each:
    3,600,000 every hour for the first channel, 7,200,000 for the second. *)
Definition mixed_rows : list DictionaryRow :=
  [mkDictionaryRow 7 "Zone" "ROOM_1" "Zone Ideal Loads Supply Air Total Cooling Energy" "J";
   mkDictionaryRow 8 "Zone" "ROOM_2" "Zone Ideal Loads Supply Air Total Cooling Energy" "C"].

Definition mixed_data : list (DataRow float) :=
  concat ((λ t, [(3600000%float, Z.of_nat t); (7200000%float, Z.of_nat t)]) <$> seq 1 24).

Definition mixed_units_file : SQLiteFile :=
  result_file mixed_rows mixed_data first_of_january [].

(** The two data collections of [mixed_units_file]. *)
Definition mixed_units_colls : list DataCollection :=
  zip_with HourlyContinuousCollection
    (header_of_row (Name "Zone Ideal Loads Supply Air Total Cooling Energy")
       (Some "Energy") "kWh" (mkAnalysisPeriod 1 1 0 1 1 23 1 false) <$> mixed_rows)
    [replicate 24 1%float; replicate 24 2%float].

(** A channel that is already reported in kilowatt-hours: 7,200,000 kWh in
    every hour of one day. *)
Definition kwh_file : SQLiteFile :=
  result_file
    [mkDictionaryRow 12 "Zone" "ROOM_1" "Zone Ideal Loads Supply Air Total Cooling Energy"
       "kWh"]
    ((λ t, (7200000%float, Z.of_nat t)) <$> seq 1 24)
    first_of_january
    [].

(** ** Design days

    The rest of [SQLiteResult]. *)

(** [SQLiteResult._check_desdays_in_report] *)
Definition _check_desdays_in_report (self : SQLiteResult) : result bool :=
  let sim_control := tablular_data_by_name self "Simulation Control" in
  match sim_control with
  | [] => Ok true
  | _ =>
      let* row3 := Py.getitem sim_control 3 in
      if String.eqb row3 "No" then Ok true else Ok false
  end.

(** ** Further vocabulary and sample files *)

(** What the reconstruction chosen for a unit label does to a value. *)
Definition value_in (units : string) (v : float) : float :=
  if String.eqb units "kWh" then (v / 3600000)%float else v.

(** The class of a data collection. *)
Inductive CollectionClass : Set :=
| Hourly
| Daily
| Monthly.

Definition class_of (c : DataCollection) : CollectionClass :=
  match c with
  | HourlyContinuousCollection _ _ => Hourly
  | DailyCollection _ _ => Daily
  | MonthlyCollection _ _ => Monthly
  end.

(** A file that holds only a [Simulation Control] table. *)
Definition sim_control_file (sim_control : list string) : SQLiteFile :=
  mkSQLiteFile
    (λ _, [])
    (λ _, [])
    (λ _, None)
    (λ name, if String.eqb name "Simulation Control" then sim_control else []).

(** The [Simulation Control] table as EnergyPlus writes it: zone sizing,
    system sizing, plant sizing, sizing periods, weather file periods. *)
Definition sim_control_rows : list string := ["Yes"; "Yes"; "No"; "No"; "Yes"].

(** Annual totals of two zones. *)
Definition annual_file : SQLiteFile :=
  result_file
    [mkDictionaryRow 4 "Zone" "ROOM_1" "Zone Ideal Loads Supply Air Total Heating Energy" "J";
     mkDictionaryRow 5 "Zone" "ROOM_2" "Zone Ideal Loads Supply Air Total Heating Energy" "J"]
    [(3600000%float, 1%Z); (7200000%float, 1%Z)]
    [(1, mkTimeRow 2017 12 31 60 4)]%Z
    [].

(** A dictionary row without any data row. *)
Definition no_data_file : SQLiteFile :=
  result_file [mkDictionaryRow 7 "Zone" "ROOM_1" "Zone Mean Air Temperature" "C"] [] [] [].

(** Daily values of two days for two channels, with three rows: the
    second channel misses its second value. *)
Definition ragged_file : SQLiteFile :=
  result_file
    [mkDictionaryRow 7 "Zone" "ROOM_1" "Zone Mean Air Temperature" "C";
     mkDictionaryRow 8 "Zone" "ROOM_2" "Zone Mean Air Temperature" "C"]
    [(21%float, 1%Z); (31%float, 1%Z); (22%float, 2%Z)]
    [(1, mkTimeRow 2017 1 1 60 2); (2, mkTimeRow 2017 1 2 60 2)]%Z
    [].

(** Records the decoder refuses: no minutes per step, and an interval code
    beyond the table. *)
Definition zero_step_file : SQLiteFile :=
  result_file [] [] [(1, mkTimeRow 2017 1 1 0 0)]%Z [].

Definition unknown_code_file : SQLiteFile :=
  result_file [] [] [(1, mkTimeRow 2017 1 1 60 5)]%Z [].

(** ** Tactics *)

(** Case analysis on the twelve months. *)
Ltac each_month m :=
  let H := fresh in
  assert (H : (m = 1 ∨ m = 2 ∨ m = 3 ∨ m = 4 ∨ m = 5 ∨ m = 6 ∨ m = 7 ∨ m = 8 ∨ m = 9
               ∨ m = 10 ∨ m = 11 ∨ m = 12)%Z) by lia;
  repeat (destruct H as [H|H]); subst m.

(** ** Examples *)

Example clean_two_channels :
  _clean_timeseries_data [(11, 1); (21, 1); (12, 2); (22, 2); (13, 3); (23, 3)]%Z 2
  = Ok [[11; 12; 13]; [21; 22; 23]]%Z.
Proof. reflexivity. Qed.

Example convert_one_channel :
  _clean_and_convert_timeseries_data [(7200000%float, 1%Z)] 1 = Ok [[2%float]].
Proof. vm_compute. reflexivity. Qed.

Example split_weather_file :
  Py.split " " "Chicago Ohare Intl Ap IL USA TMY3 WMO#=725300"
  = ["Chicago"; "Ohare"; "Intl"; "Ap"; "IL"; "USA"; "TMY3"; "WMO#=725300"].
Proof. reflexivity. Qed.

Example surface_in_one_name :
  surface_in (Name "Surface Inside Face Temperature") = true ∧
  surface_in (Name "Zone Mean Air Temperature") = false.
Proof. split; reflexivity. Qed.

Example surface_in_array_of_names :
  surface_in (Names ["Surface Inside Face Temperature"; "Zone Mean Air Temperature"]) = false ∧
  surface_in (Names ["Zone"; "Surface"]) = true.
Proof. split; reflexivity. Qed.

Example split_empty_tokens :
  Py.split " " "a  b" = ["a"; ""; "b"] ∧ Py.split "=" "WMO#" = ["WMO#"].
Proof. split; reflexivity. Qed.

Example quotient_truncates :
  Py.int_truediv 60 7 = Ok 8%Z ∧ Py.int_truediv 60 (-7) = Ok (-8)%Z ∧
  Py.int_truediv 60 0 = Raise ZeroDivisionError.
Proof. repeat split; reflexivity. Qed.

Example add_minute_hourly :
  add_minute (mkDateTime 1 31 0 0) (1440 - 60) = mkDateTime 1 31 23 0.
Proof. reflexivity. Qed.

Example add_minute_next_day :
  add_minute (mkDateTime 12 31 0 0) 1500 = mkDateTime 1 1 1 0.
Proof. reflexivity. Qed.

(** ** Transposition: what [zip] returns *)

Section ZipStar.
Context {A : Type}.
Implicit Types (ls : list (list A)) (l : list A).

(** The [i]-th tuple of [zip] exists when every argument has an [i]-th
    element, and is made of these elements in the order of the arguments. *)
Lemma zip_star_lookup ls i :
  ls ≠ [] → Py.zip_star ls !! i = mapM (λ l, l !! i) ls.
Proof.
  induction ls as [|l [|l' ls'] IH]; intros Hne; [done| |].
  - cbn [Py.zip_star mapM]. rewrite list_lookup_fmap.
    destruct (l !! i); reflexivity.
  - change (Py.zip_star (l :: l' :: ls')) with (zip_with cons l (Py.zip_star (l' :: ls'))).
    rewrite lookup_zip_with, IH by done.
    cbn [mapM]. destruct (l !! i); reflexivity.
Qed.

Lemma zip_star_lookup_Some ls i t :
  ls ≠ [] →
  Py.zip_star ls !! i = Some t ↔ Forall2 (λ l x, l !! i = Some x) ls t.
Proof. intros Hne. rewrite zip_star_lookup by done. apply mapM_Some. Qed.

Lemma zip_star_lookup_is_Some ls i :
  ls ≠ [] →
  is_Some (Py.zip_star ls !! i) ↔ Forall (λ l, i < length l) ls.
Proof.
  intros Hne. rewrite zip_star_lookup, mapM_is_Some by done.
  apply Forall_iff. intros l. apply lookup_lt_is_Some.
Qed.

(** [zip] commutes with a map over the elements. *)
Lemma zip_star_fmap {B : Type} (f : A → B) ls :
  Py.zip_star (fmap (M:=list) (fmap (M:=list) f) ls)
  = fmap (M:=list) (fmap (M:=list) f) (Py.zip_star ls).
Proof.
  induction ls as [|l [|l' ls'] IH]; [done| |].
  - cbn [Py.zip_star fmap list_fmap]. rewrite <- !list_fmap_compose. done.
  - change (Py.zip_star (l :: l' :: ls')) with (zip_with cons l (Py.zip_star (l' :: ls'))).
    change (Py.zip_star (fmap (M:=list) (fmap (M:=list) f) (l :: l' :: ls')))
      with (zip_with cons (f <$> l)
              (Py.zip_star (fmap (M:=list) (fmap (M:=list) f) (l' :: ls')))).
    rewrite IH. clear IH. generalize (Py.zip_star (l' :: ls')). intros k.
    revert k. induction l as [|x l IHl]; intros [|y k]; cbn; [done..|].
    by rewrite IHl.
Qed.

End ZipStar.

Lemma length_from_lookup {A : Type} (l : list A) (n : nat) :
  (∀ i, is_Some (l !! i) ↔ i < n) → length l = n.
Proof.
  intros H. destruct (Nat.lt_trichotomy (length l) n) as [Hlt|[Heq|Hgt]]; [|done|].
  - apply H, lookup_lt_is_Some in Hlt. lia.
  - apply lookup_lt_is_Some, H in Hgt. lia.
Qed.

(** ** Blocks of rows and their transposition *)

Section Reconstruction.
Context {V W : Type} (f : DataRow V → W).
Implicit Types (data : list (DataRow V)).

Lemma blocks_lookup data (n c j : nat) :
  j < c → blocks f data n c !! j = Some (f <$> Py.slice data (j * n) (j * n + n)).
Proof.
  intros Hj. unfold blocks. rewrite !list_lookup_fmap, lookup_seq_lt by done. done.
Qed.

Lemma length_blocks data (n c : nat) : length (blocks f data n c) = c.
Proof. unfold blocks. by rewrite !length_fmap, length_seq. Qed.

Lemma block_lookup data (n j i : nat) :
  (f <$> Py.slice data (j * n) (j * n + n)) !! i
  = if decide (i < n) then f <$> data !! (j * n + i) else None.
Proof.
  unfold Py.slice. replace (j * n + n - j * n) with n by lia.
  rewrite list_lookup_fmap, lookup_take. case_decide; [|done].
  by rewrite lookup_drop.
Qed.

Lemma length_block data (n j : nat) :
  length (f <$> Py.slice data (j * n) (j * n + n)) = n `min` (length data - j * n).
Proof.
  unfold Py.slice. replace (j * n + n - j * n) with n by lia.
  by rewrite length_fmap, length_take, length_drop.
Qed.

(** The shape of the transposed blocks: with [c] blocks of which the last
    has [w] rows, there are [w] sequences of [c] values, the [i]-th made of
    the rows [i], [i + n], [i + 2n], ... *)
Lemma zip_blocks data (n c w : nat) :
  0 < c → w ≤ n →
  (∀ j i, j < c → i < w → j * n + i < length data) →
  (w = n ∨ (c - 1) * n + w = length data) →
  length (Py.zip_star (blocks f data n c)) = w ∧
  ∀ i, i < w →
    ∃ s, Py.zip_star (blocks f data n c) !! i = Some s ∧ length s = c ∧
         ∀ j, j < c → s !! j = f <$> data !! (i + j * n).
Proof.
  intros Hc Hw Hin Hlast.
  assert (Hne : blocks f data n c ≠ []).
  { intros E. apply (f_equal length) in E. rewrite length_blocks in E. simpl in E. lia. }
  assert (Hsome : ∀ i, is_Some (Py.zip_star (blocks f data n c) !! i) ↔ i < w).
  { intros i. rewrite zip_star_lookup_is_Some, Forall_lookup by done. split.
    - intros H. specialize (H (c - 1) _ (blocks_lookup data n c (c - 1) ltac:(lia))).
      rewrite length_block in H. lia.
    - intros Hi j b Hb.
      assert (Hj : j < c).
      { apply lookup_lt_Some in Hb. by rewrite length_blocks in Hb. }
      rewrite blocks_lookup in Hb by done. injection Hb as <-.
      rewrite length_block. specialize (Hin j i Hj Hi). lia. }
  split; [by apply length_from_lookup|].
  intros i Hi. destruct (proj2 (Hsome i) Hi) as [s Hs]. exists s.
  split; [done|]. apply zip_star_lookup_Some in Hs; [|done].
  split.
  - apply Forall2_length in Hs. by rewrite length_blocks in Hs.
  - intros j Hj.
    destruct (Forall2_lookup_l _ _ _ j _ Hs (blocks_lookup data n c j Hj)) as (y & Hy & Hb).
    rewrite block_lookup in Hb. rewrite decide_True in Hb by lia.
    rewrite Hy, <- Hb. f_equal. f_equal. lia.
Qed.

End Reconstruction.

(** The number of blocks [range] yields for [q] full blocks and [r] more
    rows. *)
Lemma range_blocks (n q r : nat) :
  0 < n → r < n →
  Py.range 0 (q * n + r) n
  = Ok ((λ j, 0 + j * n) <$> seq 0 (if decide (r = 0) then q else S q)).
Proof.
  intros Hn Hr. unfold Py.range. destruct n as [|n']; [lia|].
  do 3 f_equal. rewrite Nat.sub_0_r.
  case_decide as Hz.
  - subst r. symmetry. apply (Nat.div_unique _ _ _ n'); lia.
  - symmetry. apply (Nat.div_unique _ _ _ (r - 1)); lia.
Qed.

Lemma clean_blocks {V : Type} (data : list (DataRow V)) (n q r : nat) :
  0 < n → r < n → length data = q * n + r →
  _clean_timeseries_data data n
  = Ok (Py.zip_star (blocks fst data n (if decide (r = 0) then q else S q))).
Proof.
  intros Hn Hr Hlen. unfold _clean_timeseries_data.
  rewrite Hlen, range_blocks by done. done.
Qed.

(** ** Properties of the time-series reconstruction *)

(** C1: for at least one channel and at least one timestep, a
    row list of length [k * N] is rebuilt as exactly [N] sequences of length
    [k], the [i]-th one holding the values of the rows at positions [i],
    [i + N], [i + 2N], ..., in that order. *)
Theorem clean_timeseries_transposes {V : Type} (data : list (DataRow V)) (N k : nat) :
  0 < N → 0 < k → length data = k * N → reconstructs data N k.
Proof.
  intros HN Hk Hlen. unfold reconstructs.
  rewrite (clean_blocks data N k 0) by lia. rewrite decide_True by done.
  destruct (zip_blocks fst data N k N) as [Hl Hs]; [lia..| |by left|].
  - intros j i Hj Hi. nia.
  - eexists. split; [done|]. split; [done|]. exact Hs.
Qed.

Lemma clean_timeseries_transposes_witness :
  0 < 2 ∧ 0 < 3 ∧
  reconstructs [(11, 1); (21, 1); (12, 2); (22, 2); (13, 3); (23, 3)]%Z 2 3.
Proof.
  split; [lia|]. split; [lia|].
  apply clean_timeseries_transposes; [lia | lia | reflexivity].
Defined.

(** C1, counterexample without a timestep: the empty row list has length
    [0 * 2], and [zip] of no block is empty, not two empty sequences. *)
Lemma clean_timeseries_no_rows :
  length ([] : list (DataRow Z)) = 0 * 2 ∧
  _clean_timeseries_data ([] : list (DataRow Z)) 2 = Ok [] ∧
  ¬ reconstructs ([] : list (DataRow Z)) 2 0.
Proof.
  split; [done|]. split; [done|].
  intros (seqs & Hrun & Hlen & _). cbv in Hrun. injection Hrun as <-. discriminate.
Qed.

(** C4: when the row count is not a multiple of the channel
    count [N >= 1], the reconstruction does not fail: it returns as many
    sequences as the last, incomplete block has rows, each one row longer
    than the number of complete blocks, and again made of the rows [i],
    [i + N], [i + 2N], ... *)
Theorem clean_timeseries_ragged {V : Type} (data : list (DataRow V)) (N : nat) :
  0 < N → length data mod N ≠ 0 →
  ∃ seqs, _clean_timeseries_data data N = Ok seqs ∧
    length seqs = length data mod N ∧
    ∀ i, i < length data mod N →
      ∃ s, seqs !! i = Some s ∧ length s = S (length data / N) ∧
           ∀ j, j ≤ length data / N → s !! j = fst <$> data !! (i + j * N).
Proof.
  intros HN Hr.
  pose proof (Nat.div_mod_eq (length data) N) as Hdm.
  pose proof (Nat.mod_upper_bound (length data) N ltac:(lia)) as Hub.
  set (q := length data / N) in *. set (r := length data mod N) in *.
  rewrite (clean_blocks data N q r) by lia. rewrite decide_False by done.
  destruct (zip_blocks fst data N (S q) r) as [Hl Hs]; [lia..| |right; lia|].
  - intros j i Hj Hi. nia.
  - eexists. split; [done|]. split; [done|].
    intros i Hi. destruct (Hs i Hi) as (s & ? & ? & Hj). exists s.
    split; [done|]. split; [done|]. intros j ?. apply Hj. lia.
Qed.

Lemma clean_timeseries_ragged_witness :
  0 < 2 ∧ length [(11, 1); (21, 1); (12, 2)]%Z mod 2 ≠ 0 ∧
  ∃ seqs, _clean_timeseries_data [(11, 1); (21, 1); (12, 2)]%Z 2 = Ok seqs ∧
    length seqs = length [(11, 1); (21, 1); (12, 2)]%Z mod 2 ∧
    ∀ i, i < length [(11, 1); (21, 1); (12, 2)]%Z mod 2 →
      ∃ s, seqs !! i = Some s ∧
           length s = S (length [(11, 1); (21, 1); (12, 2)]%Z / 2) ∧
           ∀ j, j ≤ length [(11, 1); (21, 1); (12, 2)]%Z / 2 →
                s !! j = fst <$> [(11, 1); (21, 1); (12, 2)]%Z !! (i + j * 2).
Proof.
  split; [lia|]. split; [discriminate|].
  apply clean_timeseries_ragged; [lia | discriminate].
Defined.

(** C4, counterexample: three rows for two channels are not refused, the
    row of the incomplete block that has no partner is kept and the second
    channel is dropped. *)
Lemma clean_timeseries_ragged_returns :
  length [(11, 1); (21, 1); (12, 2)]%Z mod 2 ≠ 0 ∧
  _clean_timeseries_data [(11, 1); (21, 1); (12, 2)]%Z 2 = Ok [[11; 12]]%Z ∧
  ¬ ∃ e, _clean_timeseries_data [(11, 1); (21, 1); (12, 2)]%Z 2 = Raise e.
Proof.
  split; [discriminate|]. split; [reflexivity|]. intros [e He]. discriminate.
Qed.

(** ** Properties of the data collections *)

(** The conversion is the plain reconstruction followed by the division of
    every value. *)
Lemma clean_and_convert_divides (data : list (DataRow float)) (n_lists : nat) :
  _clean_and_convert_timeseries_data data n_lists
  = let* seqs := _clean_timeseries_data data n_lists in
    Ok (fmap (M:=list) (fmap (M:=list) (λ v, (v / 3600000)%float)) seqs).
Proof.
  unfold _clean_and_convert_timeseries_data, _clean_timeseries_data.
  destruct (Py.range 0 (length data) n_lists) as [starts|e]; [|done].
  cbn [bind]. f_equal. rewrite <- zip_star_fmap. f_equal.
  rewrite <- list_fmap_compose. apply list_fmap_ext. intros _ i _. cbn.
  by rewrite <- list_fmap_compose.
Qed.

Section DataCollectionsFacts.
Variable UNITS : list (string * list string).
Variables (self : SQLiteResult) (output_name : OutputName).
Variables (row0 : DictionaryRow) (rows : list DictionaryRow).
Hypothesis Hrows : select_dictionary (file_path self) output_name = row0 :: rows.

Let header_rows := row0 :: rows.
Let data := select_data (file_path self) (ReportDataDictionaryIndex <$> header_rows).
Let units := header_units row0.

(** What a successful call went through: the two boundary rows, the run
    period, the reconstruction chosen from the first row's unit, and the
    pairing of headers and sequences. *)
Lemma data_collections_inv (out : Output) :
  data_collections_by_output_name UNITS self output_name = Ok out →
  ∃ first last run_period freq all_values,
    Py.getitem data 0 = Ok first ∧ Py.getitem_neg data 1 = Ok last ∧
    _extract_run_period self first.2 last.2 = Ok (run_period, freq) ∧
    reconstruction units data (length header_rows) = Ok all_values ∧
    (out = Values all_values ∨
     ∃ C, C ∈ [HourlyContinuousCollection; DailyCollection; MonthlyCollection] ∧
          out = Collections
                  (zip_with C
                     (header_of_row output_name (_data_type_from_unit UNITS units)
                        units run_period <$> header_rows)
                     all_values)).
Proof.
  unfold data_collections_by_output_name. rewrite Hrows.
  fold header_rows. fold data. fold (header_units row0). fold units.
  fold (reconstruction units data (length header_rows)).
  destruct (Py.getitem data 0) as [first|] eqn:Hfirst; [|done].
  destruct (Py.getitem_neg data 1) as [last|] eqn:Hlast; [|done]. cbn [bind].
  destruct (_extract_run_period self first.2 last.2) as [[run_period freq]|] eqn:Hrun;
    [|done].
  cbn [bind].
  destruct (reconstruction units data (length header_rows)) as [all_values|] eqn:Hrec;
    [|done].
  cbn [bind]. intros Hout.
  exists first, last, run_period, freq, all_values.
  repeat (split; [done|]).
  assert (Hwrapped : ∀ C, C ∈ [HourlyContinuousCollection; DailyCollection; MonthlyCollection] →
            Ok (Collections
                  (zip_with C
                     (header_of_row output_name (_data_type_from_unit UNITS units)
                        units run_period <$> header_rows) all_values)) = Ok out →
            ∃ C', C' ∈ [HourlyContinuousCollection; DailyCollection; MonthlyCollection] ∧
              out = Collections
                      (zip_with C'
                         (header_of_row output_name (_data_type_from_unit UNITS units)
                            units run_period <$> header_rows) all_values)).
  { intros C HC [= <-]. by exists C. }
  destruct freq as [n|f].
  - right. apply (Hwrapped HourlyContinuousCollection); [set_solver|done].
  - destruct (String.eqb f "Hourly");
      [right; apply (Hwrapped HourlyContinuousCollection); [set_solver|done]|].
    destruct (String.eqb f "Daily");
      [right; apply (Hwrapped DailyCollection); [set_solver|done]|].
    destruct (String.eqb f "Monthly");
      [right; apply (Hwrapped MonthlyCollection); [set_solver|done]|].
    injection Hout as <-. by left.
Qed.

End DataCollectionsFacts.

(** ** Dates *)

Lemma new_DateTime_Ok (m d h : Z) (dt : DateTime) :
  new_DateTime m d h = Ok dt →
  dt = mkDateTime m d h 0 ∧
  (1 ≤ m ≤ 12 ∧ 1 ≤ d ≤ days_in_month m ∧ 0 ≤ h ≤ 23)%Z.
Proof.
  unfold new_DateTime. case_match eqn:Hvalid; [|done].
  intros [= <-]. split; [done|].
  repeat (apply andb_prop in Hvalid as [Hvalid ?]). lia.
Qed.

Lemma new_DateTime_valid (m d h : Z) :
  (1 ≤ m ≤ 12)%Z → (1 ≤ d ≤ days_in_month m)%Z → (0 ≤ h ≤ 23)%Z →
  new_DateTime m d h = Ok (mkDateTime m d h 0).
Proof.
  intros Hm Hd Hh. unfold new_DateTime.
  replace (_ && _)%bool with true; [done|].
  symmetry. repeat (apply andb_true_intro; split); lia.
Qed.

(** The day of the year of a date decodes to its month and day. *)
Lemma month_day_days_before (m d : Z) :
  (1 ≤ m ≤ 12)%Z → (1 ≤ d ≤ days_in_month m)%Z →
  month_day month_lengths 1 (days_before m + (d - 1)) = (m, d) ∧
  (0 ≤ days_before m + (d - 1) ≤ 364)%Z.
Proof.
  intros Hm Hd. each_month m;
    match type of Hd with
    | context [days_in_month ?k] =>
        let v := eval vm_compute in (days_in_month k) in
        change (days_in_month k) with v in Hd
    end;
    match goal with
    | |- context [days_before ?k] =>
        let v := eval vm_compute in (days_before k) in
        change (days_before k) with v
    end;
    (split; [|lia]);
    unfold month_lengths; cbn [month_day];
    repeat match goal with
           | |- context [(?a <? ?b)%Z] => destruct (Z.ltb_spec a b); try lia
           end;
    f_equal; lia.
Qed.

(** Less than a day after midnight is the same day. *)
Lemma add_minute_same_day (m d n : Z) (dt : DateTime) :
  new_DateTime m d 0 = Ok dt → (0 ≤ n < 1440)%Z →
  add_minute dt n = mkDateTime m d (n / 60) (n mod 60).
Proof.
  intros Hdt Hn. apply new_DateTime_Ok in Hdt as [-> (Hm & Hd & _)].
  destruct (month_day_days_before m d Hm Hd) as [Hmd HD].
  unfold add_minute, minute_of_year. cbn [month day hour minute].
  set (D := (days_before m + (d - 1))%Z) in *.
  assert (Hmoy : ((D * 1440 + 0 * 60 + 0 + n) mod 525600 = D * 1440 + n)%Z).
  { rewrite Z.mod_small; lia. }
  rewrite Hmoy.
  assert (Hdiv : ((D * 1440 + n) / 1440 = D)%Z) by (Z.div_mod_to_equations; lia).
  assert (Hmod : ((D * 1440 + n) mod 1440 = n)%Z) by (Z.div_mod_to_equations; lia).
  assert (Hmin : ((D * 1440 + n) mod 60 = n mod 60)%Z) by (Z.div_mod_to_equations; lia).
  rewrite Hdiv, Hmod, Hmin, Hmd. done.
Qed.

(** ** The decoder, step by step *)

Lemma interval_of_subhourly (start : TimeRow) :
  (IntervalType start ≤ 1)%Z → Interval start ≠ 0%Z →
  interval_of start
  = Ok (Steps (60 ÷ Interval start), (60 ÷ Interval start)%Z, Interval start).
Proof.
  intros Hty Hstep. unfold interval_of, Py.int_truediv.
  rewrite (proj2 (Z.leb_le _ _) Hty), (proj2 (Z.eqb_neq _ _) Hstep). done.
Qed.

Lemma interval_of_zero_step (start : TimeRow) :
  (IntervalType start ≤ 1)%Z → Interval start = 0%Z →
  interval_of start = Raise ZeroDivisionError.
Proof.
  intros Hty Hstep. unfold interval_of, Py.int_truediv.
  rewrite (proj2 (Z.leb_le _ _) Hty), Hstep. done.
Qed.

Lemma interval_of_table (start : TimeRow) :
  (1 < IntervalType start)%Z →
  interval_of start
  = match _interval_codes !! Z.to_nat (IntervalType start) with
    | Some name => Ok (Named name, 1%Z, 60%Z)
    | None => Raise IndexError
    end.
Proof.
  intros Hty. unfold interval_of, Py.getitem.
  rewrite (proj2 (Z.leb_gt _ _) Hty). by case_match.
Qed.

Lemma interval_of_Ok (start : TimeRow) (freq : ReportingFrequency) (tph mps : Z) :
  interval_of start = Ok (freq, tph, mps) → mps = minutes_per_step start.
Proof.
  unfold interval_of, minutes_per_step.
  destruct (IntervalType start <=? 1)%Z.
  - destruct (Py.int_truediv 60 (Interval start)); [|done]. by intros [= _ _ <-].
  - destruct (Py.getitem _ _); [|done]. by intros [= _ _ <-].
Qed.

(** What a successful decoding went through. *)
Lemma extract_run_period_inv (self : SQLiteResult) (st_time end_time : Z)
    (rp : AnalysisPeriod) (freq : ReportingFrequency) :
  _extract_run_period self st_time end_time = Ok (rp, freq) →
  ∃ start end_ tph st_date end_date,
    select_time (file_path self) st_time = Some start ∧
    select_time (file_path self) end_time = Some end_ ∧
    interval_of start = Ok (freq, tph, minutes_per_step start) ∧
    new_DateTime (Month start) (if is_named "Monthly" freq then 1%Z else Day start) 0
      = Ok st_date ∧
    new_DateTime (Month end_) (Day end_) 0 = Ok end_date ∧
    rp = mkAnalysisPeriod (month st_date) (day st_date) (hour st_date)
           (month (add_minute end_date (1440 - minutes_per_step start)))
           (day (add_minute end_date (1440 - minutes_per_step start)))
           (hour (add_minute end_date (1440 - minutes_per_step start)))
           tph (if (Year start mod 4 =? 0)%Z then true else false).
Proof.
  unfold _extract_run_period.
  destruct (select_time (file_path self) st_time) as [start|]; [|discriminate].
  cbn [Py.subscriptable bind].
  destruct (interval_of start) as [[[freq' tph] mps]|] eqn:Hint; [|discriminate].
  cbn [bind]. apply interval_of_Ok in Hint as Hmps. subst mps.
  destruct (if is_named "Monthly" freq' then _ else _) as [st_date|] eqn:Hst; [|discriminate].
  cbn [bind].
  destruct (select_time (file_path self) end_time) as [end_|]; [|discriminate].
  cbn [Py.subscriptable bind].
  destruct (new_DateTime (Month end_) (Day end_) 0) as [end_date|] eqn:Hend; [|discriminate].
  cbn [bind]. cbv zeta. intros H.
  pose proof (f_equal (λ r, match r with Ok (a, _) => a | _ => rp end) H) as Hrp.
  pose proof (f_equal (λ r, match r with Ok (_, b) => b | _ => freq end) H) as Hfreq.
  cbv beta iota in Hrp, Hfreq. clear H. subst rp freq.
  exists start, end_, tph, st_date, end_date.
  split; [reflexivity|]. split; [reflexivity|]. split; [exact Hint|].
  split; [|split; [exact Hend|reflexivity]].
  rewrite <- Hst. destruct (is_named "Monthly" freq'); reflexivity.
Qed.

(** ** The decoder on the sample files *)

Example hourly_run_period :
  _extract_run_period (__init__ hourly_file) 1 2
  = Ok (mkAnalysisPeriod 1 1 0 1 31 23 1 true, Steps 1).
Proof. reflexivity. Qed.

Example monthly_run_period :
  _extract_run_period (__init__ monthly_file) 1 2
  = Ok (mkAnalysisPeriod 3 1 0 12 31 23 1 false, Named "Monthly").
Proof. reflexivity. Qed.

Example quarter_hourly_run_period :
  _extract_run_period (__init__ quarter_hourly_file) 1 2
  = Ok (mkAnalysisPeriod 7 1 0 7 1 23 4 true, Steps 4).
Proof. reflexivity. Qed.

(** ** Properties of the run-period decoder *)

(** C2: for an interval-type code of at most 1 the reporting
    frequency is the integer [int(60 / minutes-per-step)], the steps per
    hour; for a code above 1 the frequency is the entry of the table
    (Timestep, Hourly, Daily, Monthly, Annual) at the index of the code, and
    the decoder sets its timestep per hour to 1 and its minutes per step to
    60. *)
Theorem reporting_frequency_decoded (self : SQLiteResult) (st_time end_time : Z)
    (start : TimeRow) (rp : AnalysisPeriod) (freq : ReportingFrequency) :
  select_time (file_path self) st_time = Some start →
  _extract_run_period self st_time end_time = Ok (rp, freq) →
  ((IntervalType start ≤ 1)%Z →
     Interval start ≠ 0%Z ∧
     freq = Steps (60 ÷ Interval start) ∧
     interval_of start = Ok (freq, (60 ÷ Interval start)%Z, Interval start)) ∧
  ((1 < IntervalType start)%Z →
     ∃ name, _interval_codes !! Z.to_nat (IntervalType start) = Some name ∧
       freq = Named name ∧
       interval_of start = Ok (freq, 1%Z, 60%Z)).
Proof.
  intros Hstart Hrun.
  apply extract_run_period_inv in Hrun
    as (start' & end_ & tph & st_date & end_date & Hs & _ & Hint & _ & _ & _).
  rewrite Hstart in Hs. injection Hs as <-.
  split; intros Hty.
  - destruct (decide (Interval start = 0%Z)) as [Hz|Hnz].
    + rewrite interval_of_zero_step in Hint by done. discriminate.
    + rewrite interval_of_subhourly in Hint by done.
      injection Hint as <- _. rewrite interval_of_subhourly by done. done.
  - rewrite interval_of_table in Hint by done. rewrite interval_of_table by done.
    destruct (_interval_codes !! Z.to_nat (IntervalType start)) as [name|]; [|discriminate].
    injection Hint as <- _. by exists name.
Qed.

Lemma reporting_frequency_decoded_witness :
  ((Interval (mkTimeRow 1900 7 1 15 0) ≠ 0)%Z ∧
   Steps 4 = Steps (60 ÷ Interval (mkTimeRow 1900 7 1 15 0))) ∧
  (∃ name, _interval_codes !! Z.to_nat (IntervalType (mkTimeRow 2017 3 31 60 3)) = Some name ∧
     Named "Monthly" = Named name).
Proof.
  split.
  - destruct (reporting_frequency_decoded (__init__ quarter_hourly_file) 1 2
                (mkTimeRow 1900 7 1 15 0) (mkAnalysisPeriod 7 1 0 7 1 23 4 true) (Steps 4)
                eq_refl eq_refl) as [Hsub _].
    destruct (Hsub ltac:(cbn; lia)) as (? & ? & _). done.
  - destruct (reporting_frequency_decoded (__init__ monthly_file) 1 2
                (mkTimeRow 2017 3 31 60 3) (mkAnalysisPeriod 3 1 0 12 31 23 1 false)
                (Named "Monthly") eq_refl eq_refl) as [_ Htab].
    destruct (Htab ltac:(cbn; lia)) as (name & ? & ? & _). by exists name.
Defined.

(** C2, counterexample to a dividend of 3600: an hourly record has 60
    minutes per step and is decoded as 1 step per hour, where [3600 / 60]
    would be 60. *)
Lemma reporting_frequency_not_3600 :
  ∃ start rp freq,
    select_time hourly_file 1 = Some start ∧
    _extract_run_period (__init__ hourly_file) 1 2 = Ok (rp, freq) ∧
    (IntervalType start ≤ 1)%Z ∧
    freq = Steps 1 ∧
    freq ≠ Steps (3600 / Interval start).
Proof.
  exists (mkTimeRow 2016 1 1 60 1), (mkAnalysisPeriod 1 1 0 1 31 23 1 true), (Steps 1).
  split; [reflexivity|]. split; [reflexivity|]. split; [cbn; lia|].
  split; [reflexivity|]. cbn. discriminate.
Qed.

(** C6: a run period decoded with the Monthly frequency starts on day 1
    whatever the day of the start record; with any other frequency it
    starts on the day of the start record. *)
Theorem monthly_start_day (self : SQLiteResult) (st_time end_time : Z)
    (start : TimeRow) (rp : AnalysisPeriod) (freq : ReportingFrequency) :
  select_time (file_path self) st_time = Some start →
  _extract_run_period self st_time end_time = Ok (rp, freq) →
  (freq = Named "Monthly" → st_day rp = 1%Z) ∧
  (freq ≠ Named "Monthly" → st_day rp = Day start).
Proof.
  intros Hstart Hrun.
  apply extract_run_period_inv in Hrun
    as (start' & end_ & tph & st_date & end_date & Hs & _ & _ & Hst & _ & ->).
  rewrite Hstart in Hs. injection Hs as <-. cbn [st_day].
  split; intros Hfreq.
  - subst freq. cbn in Hst. by apply new_DateTime_Ok in Hst as [-> _].
  - replace (is_named "Monthly" freq) with false in Hst.
    + by apply new_DateTime_Ok in Hst as [-> _].
    + destruct freq as [n|name]; [done|]. cbn. symmetry.
      apply String.eqb_neq. congruence.
Qed.

Lemma monthly_start_day_witness :
  st_day (mkAnalysisPeriod 3 1 0 12 31 23 1 false) = 1%Z ∧
  st_day (mkAnalysisPeriod 1 1 0 1 31 23 1 true) = Day (mkTimeRow 2016 1 1 60 1).
Proof.
  split.
  - apply (monthly_start_day (__init__ monthly_file) 1 2 (mkTimeRow 2017 3 31 60 3)
             _ (Named "Monthly") eq_refl eq_refl).
    reflexivity.
  - apply (monthly_start_day (__init__ hourly_file) 1 2 (mkTimeRow 2016 1 1 60 1)
             _ (Steps 1) eq_refl eq_refl).
    discriminate.
Defined.

(** C7: the end of the decoded run period is the date of the end record,
    at midnight, advanced by [1440 - minutes_per_step] minutes, the minutes
    per step being 60 unless the interval code is at most 1; the run period
    keeps the month, day and hour of that date. For 1 to 1440 minutes per
    step it is a time of the end record's own day. *)
Theorem end_boundary_advanced (self : SQLiteResult) (st_time end_time : Z)
    (start end_ : TimeRow) (rp : AnalysisPeriod) (freq : ReportingFrequency) :
  select_time (file_path self) st_time = Some start →
  select_time (file_path self) end_time = Some end_ →
  _extract_run_period self st_time end_time = Ok (rp, freq) →
  ∃ end_date,
    new_DateTime (Month end_) (Day end_) 0 = Ok end_date ∧
    (end_month rp, end_day rp, end_hour rp)
    = (month (add_minute end_date (1440 - minutes_per_step start)),
       day (add_minute end_date (1440 - minutes_per_step start)),
       hour (add_minute end_date (1440 - minutes_per_step start))) ∧
    ((1 ≤ minutes_per_step start ≤ 1440)%Z →
     (end_month rp, end_day rp, end_hour rp)
     = (Month end_, Day end_, ((1440 - minutes_per_step start) / 60)%Z)).
Proof.
  intros Hstart Hend Hrun.
  apply extract_run_period_inv in Hrun
    as (start' & end' & tph & st_date & end_date & Hs & He & _ & _ & Hed & ->).
  rewrite Hstart in Hs. injection Hs as <-.
  rewrite Hend in He. injection He as <-.
  exists end_date. split; [done|]. cbn [end_month end_day end_hour].
  split; [done|]. intros Hmps.
  by rewrite (add_minute_same_day _ _ _ _ Hed) by lia.
Qed.

Lemma end_boundary_advanced_witness :
  ∃ end_date,
    new_DateTime 7 1 0 = Ok end_date ∧
    (7, 1, 23)%Z
    = (month (add_minute end_date (1440 - 15)), day (add_minute end_date (1440 - 15)),
       hour (add_minute end_date (1440 - 15))) ∧
    ((1 ≤ 15 ≤ 1440)%Z → (7, 1, 23)%Z = (7, 1, (1440 - 15) / 60)%Z).
Proof.
  exact (end_boundary_advanced (__init__ quarter_hourly_file) 1 2
           (mkTimeRow 1900 7 1 15 0) (mkTimeRow 1900 7 1 15 0)
           (mkAnalysisPeriod 7 1 0 7 1 23 4 true) (Steps 4) eq_refl eq_refl eq_refl).
Defined.

(** C8: the leap-year flag of the decoded run period is true exactly when
    the year of the start record is divisible by 4; no century exception is
    made. *)
Theorem leap_year_flag (self : SQLiteResult) (st_time end_time : Z)
    (start : TimeRow) (rp : AnalysisPeriod) (freq : ReportingFrequency) :
  select_time (file_path self) st_time = Some start →
  _extract_run_period self st_time end_time = Ok (rp, freq) →
  is_leap_year rp = true ↔ (4 | Year start)%Z.
Proof.
  intros Hstart Hrun.
  apply extract_run_period_inv in Hrun
    as (start' & end_ & tph & st_date & end_date & Hs & _ & _ & _ & _ & ->).
  rewrite Hstart in Hs. injection Hs as <-. cbn [is_leap_year].
  rewrite <- Z.mod_divide by done.
  destruct (Z.eqb_spec (Year start mod 4) 0); split; done.
Qed.

Lemma leap_year_flag_witness :
  is_leap_year (mkAnalysisPeriod 7 1 0 7 1 23 4 true) = true ↔ (4 | 1900)%Z.
Proof.
  exact (leap_year_flag (__init__ quarter_hourly_file) 1 2 (mkTimeRow 1900 7 1 15 0)
           (mkAnalysisPeriod 7 1 0 7 1 23 4 true) (Steps 4) eq_refl eq_refl).
Defined.

(** ** Indexing *)

Section Indexing.
Context {A : Type}.
Implicit Types (l : list A) (x : A).

Lemma getitem_Ok l (i : nat) x : Py.getitem l i = Ok x ↔ l !! i = Some x.
Proof. unfold Py.getitem. destruct (l !! i); split; congruence. Qed.

Lemma getitem_Raise l (i : nat) e : Py.getitem l i = Raise e → e = IndexError ∧ length l ≤ i.
Proof.
  unfold Py.getitem. destruct (l !! i) eqn:E; [discriminate|].
  intros [= <-]. split; [done|]. by apply lookup_ge_None.
Qed.

Lemma getitem_short l (i : nat) : length l ≤ i → Py.getitem l i = Raise IndexError.
Proof. intros H. unfold Py.getitem. by rewrite (lookup_ge_None_2 l i H). Qed.

Lemma getitem_neg_Ok l (k : nat) x :
  Py.getitem_neg l k = Ok x ↔ 1 ≤ k ≤ length l ∧ l !! (length l - k) = Some x.
Proof.
  unfold Py.getitem_neg. case_decide as Hk.
  - rewrite getitem_Ok. split; [by intros ?|by intros [_ ?]].
  - split; [discriminate|]. by intros [? _].
Qed.

Lemma getitem_neg_short l (k : nat) : length l < k → Py.getitem_neg l k = Raise IndexError.
Proof. intros H. unfold Py.getitem_neg. rewrite decide_False; [done|lia]. Qed.

Lemma getitem_neg_in_range l (k : nat) :
  1 ≤ k ≤ length l → ∃ x, Py.getitem_neg l k = Ok x.
Proof.
  intros H. destruct (lookup_lt_is_Some_2 l (length l - k)) as [x Hx]; [lia|].
  exists x. by apply getitem_neg_Ok.
Qed.

End Indexing.

Lemma split_nonempty (sep : ascii) (s : string) : 1 ≤ length (Py.split sep s).
Proof.
  induction s as [|c s IH]; cbn; [lia|].
  destruct (Ascii.eqb c sep); cbn; [lia|].
  destruct (Py.split sep s); cbn in *; lia.
Qed.

(** ** Properties of the location extractor *)

(** What a successful extraction from a non-empty table went through:
    every field comes from a fixed place. *)
Lemma extract_location_inv (self self' : SQLiteResult) :
  tablular_data_by_name self "General" ≠ [] →
  _extract_location self = Ok self' →
  ∃ row2 source last station_id latitude longitude time_zone elevation,
    let general := tablular_data_by_name self "General" in
    let split_id := Py.split " " row2 in
    Py.getitem general 2 = Ok row2 ∧
    Py.getitem_neg split_id 2 = Ok source ∧
    Py.getitem_neg split_id 1 = Ok last ∧
    Py.getitem_neg (Py.split "=" last) 1 = Ok station_id ∧
    Py.getitem general 3 = Ok latitude ∧
    Py.getitem general 4 = Ok longitude ∧
    Py.getitem general 6 = Ok time_zone ∧
    Py.getitem general 5 = Ok elevation ∧
    self' = mkSQLiteResult (file_path self)
              (Some (mkLocation (Py.join " " (Py.slice_to_neg split_id 2)) source station_id
                       latitude longitude time_zone elevation)).
Proof.
  intros Hne. unfold _extract_location.
  destruct (tablular_data_by_name self "General") as [|g0 general] eqn:Hg; [done|].
  destruct (Py.getitem (g0 :: general) 2) as [row2|] eqn:H2; [|discriminate].
  cbn [bind].
  destruct (Py.getitem_neg (Py.split " " row2) 2) as [source|] eqn:Hsrc; [|discriminate].
  cbn [bind].
  destruct (Py.getitem_neg (Py.split " " row2) 1) as [last|] eqn:Hlast; [|discriminate].
  cbn [bind].
  destruct (Py.getitem_neg (Py.split "=" last) 1) as [station|] eqn:Hsta; [|discriminate].
  cbn [bind].
  destruct (Py.getitem (g0 :: general) 3) as [lat|] eqn:H3; [|discriminate]. cbn [bind].
  destruct (Py.getitem (g0 :: general) 4) as [lon|] eqn:H4; [|discriminate]. cbn [bind].
  destruct (Py.getitem (g0 :: general) 6) as [tz|] eqn:H6; [|discriminate]. cbn [bind].
  destruct (Py.getitem (g0 :: general) 5) as [elev|] eqn:H5; [|discriminate]. cbn [bind].
  intros [= <-]. exists row2, source, last, station, lat, lon, tz, elev.
  cbv zeta. by rewrite Hsrc, Hlast, Hsta.
Qed.

Example chicago_location :
  location (__init__ chicago_file)
  = let loc := mkLocation "Chicago Ohare Intl Ap IL USA" "TMY3" "725300"
                 "41.98" "-87.92" "-6.00" "201.00" in
    Ok (Some loc, mkSQLiteResult chicago_file (Some loc)).
Proof. reflexivity. Qed.

(** C3: from a non-empty [General] table the location takes
    the latitude from row 3, the longitude from row 4, the elevation from
    row 5 and the time zone from row 6; row 2 is split at every space, all
    tokens but the last two joined by a space are the city, the token before
    the last is the source, and the text after the last ['='] of the last
    token is the station id. *)
Theorem location_fields (self self' : SQLiteResult) :
  tablular_data_by_name self "General" ≠ [] →
  _extract_location self = Ok self' →
  ∃ loc row2 last_token,
    let general := tablular_data_by_name self "General" in
    let split_id := Py.split " " row2 in
    _location self' = Some loc ∧
    general !! 3 = Some (latitude loc) ∧
    general !! 4 = Some (longitude loc) ∧
    general !! 5 = Some (elevation loc) ∧
    general !! 6 = Some (time_zone loc) ∧
    general !! 2 = Some row2 ∧
    2 ≤ length split_id ∧
    city loc = Py.join " " (take (length split_id - 2) split_id) ∧
    split_id !! (length split_id - 2) = Some (source loc) ∧
    split_id !! (length split_id - 1) = Some last_token ∧
    last (Py.split "=" last_token) = Some (station_id loc).
Proof.
  intros Hne Hrun.
  apply extract_location_inv in Hrun
    as (row2 & src & lst & sta & lat & lon & tz & elev
        & H2 & Hsrc & Hlst & Hsta & H3 & H4 & H6 & H5 & ->); [|done].
  apply getitem_Ok in H2, H3, H4, H5, H6.
  apply getitem_neg_Ok in Hsrc as [Hlen Hsrc], Hlst as [_ Hlst], Hsta as [_ Hsta].
  exists (mkLocation (Py.join " " (Py.slice_to_neg (Py.split " " row2) 2)) src sta
            lat lon tz elev), row2, lst.
  cbn [_location latitude longitude elevation time_zone city source station_id].
  repeat (split; [done|]). split; [lia|]. repeat (split; [done|]).
  rewrite last_lookup. rewrite <- Hsta. f_equal. lia.
Qed.

Lemma location_fields_witness :
  ∃ loc row2 last_token,
    Some (mkLocation "Chicago Ohare Intl Ap IL USA" "TMY3" "725300"
            "41.98" "-87.92" "-6.00" "201.00") = Some loc ∧
    chicago_general !! 3 = Some (latitude loc) ∧
    chicago_general !! 4 = Some (longitude loc) ∧
    chicago_general !! 5 = Some (elevation loc) ∧
    chicago_general !! 6 = Some (time_zone loc) ∧
    chicago_general !! 2 = Some row2 ∧
    2 ≤ length (Py.split " " row2) ∧
    city loc = Py.join " " (take (length (Py.split " " row2) - 2) (Py.split " " row2)) ∧
    Py.split " " row2 !! (length (Py.split " " row2) - 2) = Some (source loc) ∧
    Py.split " " row2 !! (length (Py.split " " row2) - 1) = Some last_token ∧
    last (Py.split "=" last_token) = Some (station_id loc).
Proof.
  apply (location_fields (__init__ chicago_file)
           (mkSQLiteResult chicago_file
              (Some (mkLocation "Chicago Ohare Intl Ap IL USA" "TMY3" "725300"
                       "41.98" "-87.92" "-6.00" "201.00")))).
  - discriminate.
  - reflexivity.
Defined.

(** C3, counterexample to the swapped rows: the elevation is not the row
    at index 6 and the time zone is not the row at index 5. *)
Lemma location_elevation_not_row_6 :
  ∃ self' loc,
    _extract_location (__init__ chicago_file) = Ok self' ∧
    _location self' = Some loc ∧
    tablular_data_by_name (__init__ chicago_file) "General" !! 6 = Some "-6.00" ∧
    tablular_data_by_name (__init__ chicago_file) "General" !! 5 = Some "201.00" ∧
    elevation loc = "201.00" ∧ time_zone loc = "-6.00" ∧
    tablular_data_by_name (__init__ chicago_file) "General" !! 6 ≠ Some (elevation loc) ∧
    tablular_data_by_name (__init__ chicago_file) "General" !! 5 ≠ Some (time_zone loc).
Proof.
  eexists _, _. split; [reflexivity|]. split; [reflexivity|].
  repeat (split; [reflexivity|]). split; discriminate.
Qed.

(** C9: without a [General] table the location is absent and
    nothing is raised; a table that is not empty but has fewer than seven
    rows, or whose row 2 has fewer than two tokens, raises an [IndexError]. *)
Theorem location_absent_or_error (file : SQLiteFile) :
  let general := select_tabular file "General" in
  (general = [] → location (__init__ file) = Ok (None, __init__ file)) ∧
  (general ≠ [] → length general < 7 → location (__init__ file) = Raise IndexError) ∧
  (∀ row2, general !! 2 = Some row2 → length (Py.split " " row2) < 2 →
     location (__init__ file) = Raise IndexError).
Proof.
  cbv zeta. unfold location, __init__, _extract_location, tablular_data_by_name.
  cbn [_location file_path].
  set (general := select_tabular file "General").
  split; [by intros ->|].
  assert (Hrow2 : ∀ row2, general !! 2 = Some row2 →
            general ≠ [] ∧ Py.getitem general 2 = Ok row2).
  { intros row2 H2. split; [by intros E; rewrite E in H2|by apply getitem_Ok]. }
  split.
  - intros Hne Hlen. destruct general as [|g0 general']; [done|].
    set (g := g0 :: general') in *.
    destruct (Py.getitem g 2) as [row2|] eqn:H2;
      [|by apply getitem_Raise in H2 as [-> _]].
    cbn [bind].
    destruct (Py.getitem_neg (Py.split " " row2) 2) as [source|] eqn:Hsrc;
      [|unfold Py.getitem_neg in Hsrc; case_decide; [|by injection Hsrc as <-];
        by apply getitem_Raise in Hsrc as [-> _]].
    cbn [bind].
    apply getitem_neg_Ok in Hsrc as [Hsplit _].
    destruct (getitem_neg_in_range (Py.split " " row2) 1 ltac:(lia)) as [lst ->].
    cbn [bind].
    destruct (getitem_neg_in_range (Py.split "=" lst) 1
                ltac:(pose proof (split_nonempty "=" lst); lia)) as [sta ->].
    cbn [bind].
    destruct (Py.getitem g 3) as [lat|] eqn:H3;
      [|by apply getitem_Raise in H3 as [-> _]]. cbn [bind].
    destruct (Py.getitem g 4) as [lon|] eqn:H4;
      [|by apply getitem_Raise in H4 as [-> _]]. cbn [bind].
    by rewrite (getitem_short g 6) by lia.
  - intros row2 H2 Hsplit. destruct (Hrow2 row2 H2) as [Hne Hget].
    destruct general as [|g0 general']; [done|]. rewrite Hget. cbn [bind].
    by rewrite getitem_neg_short by lia.
Qed.

Lemma location_absent_or_error_witness :
  location (__init__ hourly_file) = Ok (None, __init__ hourly_file) ∧
  location (__init__ short_file) = Raise IndexError ∧
  location (__init__ one_word_file) = Raise IndexError.
Proof.
  split; [|split].
  - apply (proj1 (location_absent_or_error hourly_file)). reflexivity.
  - apply (proj1 (proj2 (location_absent_or_error short_file))); [discriminate|cbn; lia].
  - apply (proj2 (proj2 (location_absent_or_error one_word_file)) "Chicago");
      [reflexivity|cbn; lia].
Defined.

(** C9, counterexample: a [General] table of three rows does not give an
    absent location, the extraction raises. *)
Lemma location_short_table_raises :
  length (select_tabular short_file "General") < 7 ∧
  location (__init__ short_file) = Raise IndexError ∧
  ¬ ∃ self', location (__init__ short_file) = Ok (None, self').
Proof.
  split; [cbn; lia|]. split; [reflexivity|]. intros [self' H]. discriminate.
Qed.

(** ** Units and headers of the data collections *)

(** A batch reported in Joules is relabelled and every value is divided. *)
Lemma joule_batch_converted (row0 : DictionaryRow) (data : list (DataRow float))
    (n_lists : nat) :
  Units row0 = "J" →
  header_units row0 = "kWh" ∧
  reconstruction (header_units row0) data n_lists
  = let* seqs := _clean_timeseries_data data n_lists in
    Ok (fmap (M:=list) (fmap (M:=list) (λ v, (v / 3600000)%float)) seqs).
Proof.
  intros HJ. unfold header_units, reconstruction. rewrite HJ. cbn [String.eqb negb].
  split; [done|]. apply clean_and_convert_divides.
Qed.

(** A batch in a unit other than Joules and kilowatt-hours keeps its label
    and its values. *)
Lemma other_batch_unchanged (row0 : DictionaryRow) (data : list (DataRow float))
    (n_lists : nat) :
  Units row0 ≠ "J" → Units row0 ≠ "kWh" →
  header_units row0 = Units row0 ∧
  reconstruction (header_units row0) data n_lists = _clean_timeseries_data data n_lists.
Proof.
  intros HJ HkWh. unfold header_units, reconstruction.
  rewrite (proj2 (String.eqb_neq _ _) HJ). cbn [negb].
  by rewrite (proj2 (String.eqb_neq _ _) HkWh).
Qed.

(** A batch already in kilowatt-hours keeps its label, and its values are
    divided all the same. *)
Lemma kwh_batch_converted (row0 : DictionaryRow) (data : list (DataRow float))
    (n_lists : nat) :
  Units row0 = "kWh" →
  header_units row0 = "kWh" ∧
  reconstruction (header_units row0) data n_lists
  = _clean_and_convert_timeseries_data data n_lists.
Proof. intros HkWh. unfold header_units, reconstruction. by rewrite HkWh. Qed.

Lemma metadata_two_keys (obj key_value name : string) :
  obj ≠ "type" →
  size (<[obj := key_value]> ({["type" := name]} : gmap string string)) = 2.
Proof.
  intros Hobj. rewrite map_size_insert_None, map_size_singleton; [done|].
  by apply lookup_singleton_ne.
Qed.

(** C10: every returned header carries the unit label of the
    first dictionary row (Joules relabelled) and the data type of that
    label, whatever the units of the later rows, and the values paired with
    it come from the reconstruction chosen by that label; its metadata has
    exactly two keys, ['type'] for the row's output name and one object key
    for the row's object name, the object key being ['Surface'] when
    ['Surface' in output_name] and the row's stored object type otherwise.
    The stored object types (Zone, Surface, System and the like) are
    supposed different from the key ['type'] itself. *)
Theorem headers_from_first_row (UNITS : list (string * list string))
    (self : SQLiteResult) (output_name : OutputName)
    (row0 : DictionaryRow) (rows : list DictionaryRow) (data_colls : list DataCollection) :
  select_dictionary (file_path self) output_name = row0 :: rows →
  (∀ row, row ∈ row0 :: rows → IndexGroup row ≠ "type") →
  data_collections_by_output_name UNITS self output_name = Ok (Collections data_colls) →
  ∃ all_values,
    reconstruction (header_units row0)
      (select_data (file_path self) (ReportDataDictionaryIndex <$> row0 :: rows))
      (length (row0 :: rows)) = Ok all_values ∧
    ∀ i c, data_colls !! i = Some c →
      ∃ row, (row0 :: rows) !! i = Some row ∧
        all_values !! i = Some (values c) ∧
        unit (header c) = header_units row0 ∧
        data_type (header c) = _data_type_from_unit UNITS (header_units row0) ∧
        let obj := if surface_in output_name then "Surface" else IndexGroup row in
        metadata (header c) = <[obj := KeyValue row]> {["type" := OutputVariable row]} ∧
        size (metadata (header c)) = 2 ∧
        metadata (header c) !! "type" = Some (OutputVariable row) ∧
        metadata (header c) !! obj = Some (KeyValue row).
Proof.
  intros Hrows Htypes Hrun.
  destruct (data_collections_inv UNITS self output_name row0 rows Hrows _ Hrun)
    as (first & lst & run_period & freq & all_values & _ & _ & _ & Hrec & Hout).
  exists all_values. split; [exact Hrec|].
  destruct Hout as [Hout|(C & HC & Hout)]; [discriminate|].
  assert (Hcolls : data_colls
            = zip_with C
                (header_of_row output_name (_data_type_from_unit UNITS (header_units row0))
                   (header_units row0) run_period <$> row0 :: rows) all_values)
    by congruence.
  clear Hout. intros i c Hc. rewrite Hcolls in Hc.
  apply lookup_zip_with_Some in Hc as (h & v & -> & Hh & Hv).
  apply list_lookup_fmap_Some in Hh as (row & -> & Hrow).
  exists row. split; [done|].
  assert (header (C (header_of_row output_name
                       (_data_type_from_unit UNITS (header_units row0))
                       (header_units row0) run_period row) v)
          = header_of_row output_name (_data_type_from_unit UNITS (header_units row0))
              (header_units row0) run_period row
          ∧ values (C (header_of_row output_name
                         (_data_type_from_unit UNITS (header_units row0))
                         (header_units row0) run_period row) v) = v) as [-> ->].
  { repeat (apply elem_of_cons in HC as [->|HC]; [done|]). by apply elem_of_nil in HC. }
  split; [done|]. unfold header_of_row. cbn [unit data_type metadata].
  split; [done|]. split; [done|]. cbv zeta.
  replace (if negb (surface_in output_name) then IndexGroup row else "Surface")
    with (if surface_in output_name then "Surface" else IndexGroup row)
    by (by destruct (surface_in output_name)).
  assert (Hobj : (if surface_in output_name then "Surface" else IndexGroup row) ≠ "type").
  { destruct (surface_in output_name); [discriminate|].
    apply Htypes. by eapply list_elem_of_lookup_2. }
  split; [done|]. split; [by apply metadata_two_keys|].
  split; [|by apply lookup_insert_eq].
  rewrite lookup_insert_ne by done. apply lookup_singleton_eq.
Qed.

Example mixed_units_collections :
  data_collections_by_output_name sample_UNITS (__init__ mixed_units_file)
    (Name "Zone Ideal Loads Supply Air Total Cooling Energy")
  = Ok (Collections mixed_units_colls).
Proof. vm_compute. reflexivity. Qed.

Lemma headers_from_first_row_witness :
  let second :=
    HourlyContinuousCollection
      (header_of_row (Name "Zone Ideal Loads Supply Air Total Cooling Energy")
         (Some "Energy") "kWh" (mkAnalysisPeriod 1 1 0 1 1 23 1 false)
         (mkDictionaryRow 8 "Zone" "ROOM_2"
            "Zone Ideal Loads Supply Air Total Cooling Energy" "C"))
      (replicate 24 2%float) in
  (∀ row, row ∈ mixed_rows → IndexGroup row ≠ "type") ∧
  unit (header second) = "kWh" ∧ data_type (header second) = Some "Energy" ∧
  size (metadata (header second)) = 2 ∧
  metadata (header second) !! "type"
  = Some "Zone Ideal Loads Supply Air Total Cooling Energy" ∧
  metadata (header second) !! "Zone" = Some "ROOM_2".
Proof.
  intros second.
  assert (Htypes : ∀ row, row ∈ mixed_rows → IndexGroup row ≠ "type").
  { intros row Hrow. unfold mixed_rows in Hrow.
    repeat (apply elem_of_cons in Hrow as [->|Hrow]; [discriminate|]).
    by apply elem_of_nil in Hrow. }
  split; [exact Htypes|].
  destruct (headers_from_first_row sample_UNITS (__init__ mixed_units_file)
              (Name "Zone Ideal Loads Supply Air Total Cooling Energy")
              (mkDictionaryRow 7 "Zone" "ROOM_1"
                 "Zone Ideal Loads Supply Air Total Cooling Energy" "J")
              [mkDictionaryRow 8 "Zone" "ROOM_2"
                 "Zone Ideal Loads Supply Air Total Cooling Energy" "C"]
              _ eq_refl Htypes mixed_units_collections)
    as (all_values & _ & Hheaders).
  destruct (Hheaders 1 second eq_refl)
    as (row & Hrow & _ & Hunit & Htype & _ & Hsize & Hname & Hobject).
  injection Hrow as <-.
  split; [exact Hunit|]. split; [exact Htype|]. split; [exact Hsize|].
  split; [exact Hname|exact Hobject].
Defined.

(** C5, failing input: the values of a channel reported in
    kilowatt-hours do not pass through unchanged; they are divided by
    3,600,000 like Joules, under the unchanged label. The channel has the 24
    hourly values of one day, as its run period asks. *)
Theorem kwh_batch_divided_again :
  Units <$> select_dictionary kwh_file
              (Name "Zone Ideal Loads Supply Air Total Cooling Energy") = ["kWh"] ∧
  fst <$> select_data kwh_file [12%Z] = replicate 24 7200000%float ∧
  ∃ head,
    data_collections_by_output_name sample_UNITS (__init__ kwh_file)
      (Name "Zone Ideal Loads Supply Air Total Cooling Energy")
    = Ok (Collections [HourlyContinuousCollection head (replicate 24 2%float)]) ∧
    unit head = "kWh" ∧
    analysis_period head = mkAnalysisPeriod 1 1 0 1 1 23 1 false.
Proof.
  split; [reflexivity|]. split; [reflexivity|].
  eexists. split; [vm_compute; reflexivity|]. split; reflexivity.
Qed.

(** * Further properties of the parser *)

(** ** Reconstruction: edges, one channel, and the way back *)

Lemma convert_blocks (data : list (DataRow float)) (n q r : nat) :
  0 < n → r < n → length data = q * n + r →
  _clean_and_convert_timeseries_data data n
  = Ok (Py.zip_star (blocks (λ val, (fst val / 3600000)%float) data n
                       (if decide (r = 0) then q else S q))).
Proof.
  intros Hn Hr Hlen. unfold _clean_and_convert_timeseries_data.
  rewrite Hlen, range_blocks by done. done.
Qed.

(** The first block and the blocks of the remaining rows. *)
Lemma blocks_S {V W : Type} (f : DataRow V → W) (data : list (DataRow V)) (n c : nat) :
  blocks f data n (S c) = (f <$> take n data) :: blocks f (drop n data) n c.
Proof.
  unfold blocks. rewrite <- !list_fmap_compose. cbn [seq fmap list_fmap].
  f_equal.
  - cbn. unfold Py.slice. cbn. by rewrite Nat.sub_0_r.
  - rewrite <- fmap_S_seq, <- list_fmap_compose. apply list_fmap_ext.
    intros _ j _. cbn. unfold Py.slice.
    replace (n + j * n + n - (n + j * n)) with n by lia.
    replace (j * n + n - j * n) with n by lia.
    by rewrite drop_drop.
Qed.

Lemma concat_blocks {V W : Type} (f : DataRow V → W) (data : list (DataRow V)) (n c : nat) :
  length data = c * n → concat (blocks f data n c) = f <$> data.
Proof.
  revert data. induction c as [|c IH]; intros data Hlen.
  - destruct data; [done|discriminate].
  - rewrite blocks_S. cbn [concat]. rewrite IH.
    + by rewrite <- fmap_app, take_drop.
    + rewrite length_drop. lia.
Qed.

Lemma length_zip_star_rect {A : Type} (M : list (list A)) (w : nat) :
  M ≠ [] → Forall (λ r, length r = w) M → length (Py.zip_star M) = w.
Proof.
  intros Hne Hrect. apply length_from_lookup. intros i.
  rewrite zip_star_lookup_is_Some by done. split.
  - intros Hi. destruct M as [|r M']; [done|].
    apply Forall_cons in Hi as [Hi _]. apply Forall_cons in Hrect as [Hr _]. lia.
  - intros Hi. eapply Forall_impl; [exact Hrect|]. cbn. intros r ->. done.
Qed.

(** Transposing twice gives a rectangular table back. *)
Lemma zip_star_involutive {A : Type} (M : list (list A)) (w : nat) :
  M ≠ [] → 0 < w → Forall (λ r, length r = w) M →
  Py.zip_star (Py.zip_star M) = M.
Proof.
  intros Hne Hw Hrect.
  pose proof (length_zip_star_rect M w Hne Hrect) as Hlen.
  assert (Hne' : Py.zip_star M ≠ []).
  { intros E. rewrite E in Hlen. cbn in Hlen. lia. }
  apply list_eq. intros j. rewrite zip_star_lookup by done.
  destruct (M !! j) as [r|] eqn:Hr.
  - apply mapM_Some. apply Forall2_same_length_lookup_2.
    + rewrite Hlen. symmetry. by eapply (proj1 (Forall_lookup _ _) Hrect).
    + intros i col x Hcol Hx. apply zip_star_lookup_Some in Hcol; [|done].
      destruct (Forall2_lookup_l _ _ _ _ _ Hcol Hr) as (y & Hy & Hri). congruence.
  - apply mapM_None. apply Exists_exists.
    destruct (lookup_lt_is_Some_2 (Py.zip_star M) 0 ltac:(lia)) as [col Hcol].
    exists col. split; [by eapply list_elem_of_lookup_2|].
    apply zip_star_lookup_Some in Hcol; [|done].
    apply Forall2_length in Hcol. apply lookup_ge_None in Hr.
    apply lookup_ge_None. lia.
Qed.

Lemma blocks_rect {V W : Type} (f : DataRow V → W) (data : list (DataRow V)) (n c : nat) :
  length data = c * n → Forall (λ r, length r = n) (blocks f data n c).
Proof.
  intros Hlen. apply Forall_lookup. intros j b Hb.
  assert (Hj : j < c).
  { apply lookup_lt_Some in Hb. by rewrite length_blocks in Hb. }
  rewrite blocks_lookup in Hb by done. injection Hb as <-.
  rewrite length_block. nia.
Qed.

Lemma blocks_nonempty {V W : Type} (f : DataRow V → W) (data : list (DataRow V)) (n c : nat) :
  0 < c → blocks f data n c ≠ [].
Proof.
  intros Hc E. apply (f_equal length) in E. rewrite length_blocks in E. cbn in E. lia.
Qed.

(** X1: transposing the reconstructed sequences again and chaining the
    tuples gives back the value column of the rows, in the order of the
    rows: no value is lost, repeated or moved. *)
Theorem clean_timeseries_round_trip {V : Type} (data : list (DataRow V)) (N k : nat)
    (seqs : list (list V)) :
  0 < N → 0 < k → length data = k * N →
  _clean_timeseries_data data N = Ok seqs →
  concat (Py.zip_star seqs) = fst <$> data.
Proof.
  intros HN Hk Hlen. rewrite (clean_blocks data N k 0) by lia.
  rewrite decide_True by done. intros [= <-].
  rewrite (zip_star_involutive _ N);
    [by apply concat_blocks|by apply blocks_nonempty|done|by apply blocks_rect].
Qed.

Lemma clean_timeseries_round_trip_witness :
  concat (Py.zip_star [[11; 12; 13]; [21; 22; 23]]%Z)
  = fst <$> [(11, 1); (21, 1); (12, 2); (22, 2); (13, 3); (23, 3)]%Z.
Proof.
  apply (clean_timeseries_round_trip _ 2 3); [lia | lia | reflexivity | reflexivity].
Defined.

(** X2: with one channel the reconstruction returns one sequence, the
    value column itself. *)
Theorem clean_timeseries_one_channel {V : Type} (data : list (DataRow V)) :
  data ≠ [] → _clean_timeseries_data data 1 = Ok [fst <$> data].
Proof.
  intros Hne. assert (0 < length data) by (destruct data; [done|cbn; lia]).
  rewrite (clean_blocks data 1 (length data) 0) by lia. rewrite decide_True by done.
  f_equal.
  destruct (zip_blocks fst data 1 (length data) 1) as [Hl Hs]; [lia..| |by left|].
  - intros j i Hj Hi. lia.
  - destruct (Hs 0 ltac:(lia)) as (s & Hs0 & Hlen & Hval).
    destruct (Py.zip_star (blocks fst data 1 (length data))) as [|s' [|? ?]];
      [discriminate| |discriminate].
    injection Hs0 as ->. f_equal. apply list_eq. intros j.
    destruct (decide (j < length data)) as [Hj|Hj].
    + rewrite Hval by done. rewrite list_lookup_fmap. do 2 f_equal. lia.
    + assert (Hge : length data ≤ j) by lia.
      rewrite (lookup_ge_None_2 s j) by lia.
      symmetry. apply lookup_ge_None_2. rewrite length_fmap. exact Hge.
Qed.

Lemma clean_timeseries_one_channel_witness :
  _clean_timeseries_data [(21, 1); (22, 2); (23, 3)]%Z 1 = Ok [[21; 22; 23]%Z].
Proof. apply (clean_timeseries_one_channel [(21, 1); (22, 2); (23, 3)]%Z). discriminate. Defined.

(** X3: both reconstructions refuse a channel count of zero with a
    [ValueError], whatever the rows, and return no sequence at all for an
    empty row list and a positive channel count. *)
Theorem reconstruction_edges (data : list (DataRow float)) (n : nat) :
  _clean_timeseries_data data 0 = Raise ValueError ∧
  _clean_and_convert_timeseries_data data 0 = Raise ValueError ∧
  (0 < n → _clean_timeseries_data ([] : list (DataRow float)) n = Ok [] ∧
           _clean_and_convert_timeseries_data [] n = Ok []).
Proof.
  split; [done|]. split; [done|]. intros Hn.
  rewrite (clean_blocks [] n 0 0), (convert_blocks [] n 0 0) by (done || lia). done.
Qed.

(** X4: the converting reconstruction fails exactly when the plain one
    fails, with the same exception, and otherwise returns the sequences of
    the plain one with every value divided by 3,600,000: same number of
    sequences, same lengths, same order. *)
Theorem convert_follows_clean (data : list (DataRow float)) (n_lists : nat) :
  (∀ e, _clean_and_convert_timeseries_data data n_lists = Raise e
        ↔ _clean_timeseries_data data n_lists = Raise e) ∧
  (∀ seqs, _clean_timeseries_data data n_lists = Ok seqs →
     ∃ converted,
       _clean_and_convert_timeseries_data data n_lists = Ok converted ∧
       length converted = length seqs ∧
       ∀ i s, seqs !! i = Some s →
         ∃ t, converted !! i = Some t ∧ length t = length s ∧
              ∀ j v, s !! j = Some v → t !! j = Some (v / 3600000)%float).
Proof.
  rewrite clean_and_convert_divides.
  destruct (_clean_timeseries_data data n_lists) as [seqs|e]; cbn [bind].
  - split; [intros e; split; discriminate|].
    intros seqs' [= <-]. eexists. split; [done|]. split; [by rewrite length_fmap|].
    intros i s Hs. exists ((λ v, (v / 3600000)%float) <$> s).
    split; [by rewrite list_lookup_fmap, Hs|]. split; [by rewrite length_fmap|].
    intros j v Hv. by rewrite list_lookup_fmap, Hv.
  - split; [done|discriminate].
Qed.

(** ** Run period: frequencies and failures *)

(** X5: a decoded reporting frequency is an integer or one of Daily,
    Monthly and Annual: the names Timestep and Hourly of the table are never
    returned, since the table is only read for codes above 1. *)
Theorem reporting_frequency_values (self : SQLiteResult) (st_time end_time : Z)
    (rp : AnalysisPeriod) (freq : ReportingFrequency) :
  _extract_run_period self st_time end_time = Ok (rp, freq) →
  freq ≠ Named "Timestep" ∧ freq ≠ Named "Hourly" ∧
  ((∃ n, freq = Steps n) ∨
   freq = Named "Daily" ∨ freq = Named "Monthly" ∨ freq = Named "Annual").
Proof.
  intros Hrun.
  apply extract_run_period_inv in Hrun
    as (start & end_ & tph & st_date & end_date & _ & _ & Hint & _ & _ & _).
  destruct (decide (IntervalType start ≤ 1)%Z) as [Hty|Hty].
  - destruct (decide (Interval start = 0%Z)) as [Hz|Hnz].
    + rewrite interval_of_zero_step in Hint by done. discriminate.
    + rewrite interval_of_subhourly in Hint by done. injection Hint as <- _.
      repeat split; (discriminate || (left; eauto)).
  - rewrite interval_of_table in Hint by lia.
    assert (∃ n, Z.to_nat (IntervalType start) = S (S n)) as [n Hn].
    { exists (Z.to_nat (IntervalType start) - 2). lia. }
    rewrite Hn in Hint.
    destruct n as [|[|[|n]]]; cbn in Hint; try discriminate;
      injection Hint as <- _; repeat split; try discriminate; right; auto.
Qed.

Lemma reporting_frequency_values_witness :
  Named "Monthly" ≠ Named "Timestep" ∧ Named "Monthly" ≠ Named "Hourly" ∧
  ((∃ n, Named "Monthly" = Steps n) ∨
   Named "Monthly" = Named "Daily" ∨ Named "Monthly" = Named "Monthly"
   ∨ Named "Monthly" = Named "Annual").
Proof.
  exact (reporting_frequency_values (__init__ monthly_file) 1 2 _ _ monthly_run_period).
Defined.

(** X6: for a sub-hourly or hourly record of 1 to 60 minutes per step, the
    reporting frequency is an integer between 1 and 60, the largest number
    of steps that fit in an hour; it is exactly [60 / minutes] when the
    minutes divide 60. Above 60 minutes per step the frequency is 0. *)
Theorem frequency_fits_hour (self : SQLiteResult) (st_time end_time : Z)
    (start : TimeRow) (rp : AnalysisPeriod) (freq : ReportingFrequency) :
  select_time (file_path self) st_time = Some start →
  _extract_run_period self st_time end_time = Ok (rp, freq) →
  (IntervalType start ≤ 1)%Z →
  ((1 ≤ Interval start ≤ 60)%Z →
     ∃ n, freq = Steps n ∧
       (1 ≤ n ≤ 60)%Z ∧
       (n * Interval start ≤ 60 < (n + 1) * Interval start)%Z ∧
       ((Interval start | 60)%Z → (n * Interval start = 60)%Z)) ∧
  ((60 < Interval start)%Z → freq = Steps 0).
Proof.
  intros Hstart Hrun Hty.
  apply extract_run_period_inv in Hrun
    as (start' & end_ & tph & st_date & end_date & Hs & _ & Hint & _ & _ & _).
  rewrite Hstart in Hs. injection Hs as <-.
  split.
  - intros Hstep. rewrite interval_of_subhourly in Hint by lia.
    injection Hint as <- _. eexists. split; [reflexivity|].
    rewrite Z.quot_div_nonneg by lia.
    pose proof (Z.div_mod 60 (Interval start) ltac:(lia)) as Hdm.
    pose proof (Z.mod_pos_bound 60 (Interval start) ltac:(lia)) as Hmod.
    split; [|split].
    + split; [apply Z.div_le_lower_bound; lia|].
      apply Z.div_le_upper_bound; lia.
    + nia.
    + intros Hdiv. apply Z.mod_divide in Hdiv; [|lia]. nia.
  - intros Hstep. rewrite interval_of_subhourly in Hint by lia.
    injection Hint as <- _.
    rewrite Z.quot_small by lia. done.
Qed.

Lemma frequency_fits_hour_witness :
  ∃ n, Steps 4 = Steps n ∧ (1 ≤ n ≤ 60)%Z ∧ (n * 15 = 60)%Z.
Proof.
  destruct (frequency_fits_hour (__init__ quarter_hourly_file) 1 2
              (mkTimeRow 1900 7 1 15 0) _ _ eq_refl quarter_hourly_run_period
              ltac:(cbn; lia)) as [Hfit _].
  destruct (Hfit ltac:(cbn; lia)) as (n & Hfreq & Hbounds & _ & Hexact).
  exists n. split; [exact Hfreq|]. split; [exact Hbounds|].
  apply Hexact. exists 4%Z. reflexivity.
Defined.

(** X7: the decoder raises a [TypeError] when no record has the start
    index, a [ZeroDivisionError] for a sub-hourly or hourly record with 0
    minutes per step, an [IndexError] for an interval code of 5 or more,
    and a [TypeError] when the start record is usable but no record has the
    end index. *)
Theorem extract_run_period_failures (self : SQLiteResult) (st_time end_time : Z) :
  (select_time (file_path self) st_time = None →
     _extract_run_period self st_time end_time = Raise TypeError) ∧
  (∀ start, select_time (file_path self) st_time = Some start →
     ((IntervalType start ≤ 1)%Z → Interval start = 0%Z →
        _extract_run_period self st_time end_time = Raise ZeroDivisionError) ∧
     ((5 ≤ IntervalType start)%Z →
        _extract_run_period self st_time end_time = Raise IndexError) ∧
     ((IntervalType start ≤ 1 ∧ Interval start ≠ 0 ∨ 1 < IntervalType start < 5)%Z →
      (1 ≤ Month start ≤ 12 ∧ 1 ≤ Day start ≤ days_in_month (Month start))%Z →
      select_time (file_path self) end_time = None →
        _extract_run_period self st_time end_time = Raise TypeError)).
Proof.
  unfold _extract_run_period. split.
  - intros ->. reflexivity.
  - intros start ->. cbn [Py.subscriptable bind]. split; [|split].
    + intros Hty Hz. rewrite interval_of_zero_step by done. reflexivity.
    + intros Hty. rewrite interval_of_table by lia.
      rewrite lookup_ge_None_2 by (cbn; lia). reflexivity.
    + intros Hint [Hm Hd] ->.
      assert (∃ freq tph mps, interval_of start = Ok (freq, tph, mps))
        as (freq & tph & mps & ->).
      { destruct Hint as [[Hty Hstep]|Hty].
        - rewrite interval_of_subhourly by done. eauto.
        - rewrite interval_of_table by lia.
          destruct (_interval_codes !! Z.to_nat (IntervalType start)) eqn:E; [eauto|].
          apply lookup_ge_None in E. cbn in E. lia. }
      cbn [bind].
      assert (1 ≤ days_in_month (Month start))%Z by lia.
      destruct (is_named "Monthly" freq); rewrite new_DateTime_valid by lia; reflexivity.
Qed.

Lemma extract_run_period_failures_witness :
  _extract_run_period (__init__ hourly_file) 5 2 = Raise TypeError ∧
  _extract_run_period (__init__ zero_step_file) 1 1 = Raise ZeroDivisionError ∧
  _extract_run_period (__init__ unknown_code_file) 1 1 = Raise IndexError ∧
  _extract_run_period (__init__ hourly_file) 1 5 = Raise TypeError.
Proof.
  split; [|split; [|split]].
  - apply (proj1 (extract_run_period_failures (__init__ hourly_file) 5 2)). reflexivity.
  - apply (proj1 (proj2 (extract_run_period_failures (__init__ zero_step_file) 1 1)
                   (mkTimeRow 2017 1 1 0 0) eq_refl)); [cbn; lia|reflexivity].
  - apply (proj1 (proj2 (proj2 (extract_run_period_failures (__init__ unknown_code_file) 1 1)
                           (mkTimeRow 2017 1 1 60 5) eq_refl))). cbn; lia.
  - apply (proj2 (proj2 (proj2 (extract_run_period_failures (__init__ hourly_file) 1 5)
                           (mkTimeRow 2016 1 1 60 1) eq_refl))).
    + left. cbn. lia.
    + change (days_in_month (Month (mkTimeRow 2016 1 1 60 1))) with 31%Z. cbn. lia.
    + reflexivity.
Defined.

(** ** Splitting and joining *)

Lemma string_app_assoc (s1 s2 s3 : string) : (s1 +:+ s2) +:+ s3 = s1 +:+ (s2 +:+ s3).
Proof.
  induction s1 as [|c s1 IH]; [done|].
  change (String c ((s1 +:+ s2) +:+ s3) = String c (s1 +:+ (s2 +:+ s3))).
  by rewrite IH.
Qed.

(** Joining the tokens of a string with the separator gives the string
    back. *)
Lemma join_split (sep : ascii) (s : string) :
  Py.join (String sep EmptyString) (Py.split sep s) = s.
Proof.
  induction s as [|c s IH]; [done|]. cbn [Py.split].
  pose proof (split_nonempty sep s) as Hne.
  destruct (Ascii.eqb_spec c sep) as [->|Hc].
  - destruct (Py.split sep s) as [|w ws] eqn:E; [cbn in Hne; lia|].
    change (Py.join (String sep EmptyString) (EmptyString :: w :: ws))
      with (String sep (Py.join (String sep EmptyString) (w :: ws))).
    by rewrite IH.
  - destruct (Py.split sep s) as [|w ws] eqn:E; [cbn in Hne; lia|].
    rewrite <- IH. destruct ws; reflexivity.
Qed.

Lemma join_snoc2 (sep : string) (l : list string) (a b : string) :
  l ≠ [] →
  Py.join sep (l ++ [a; b]) = Py.join sep l +:+ sep +:+ a +:+ sep +:+ b.
Proof.
  intros Hne. induction l as [|x [|y l] IH]; [done| |].
  - reflexivity.
  - change (Py.join sep ((x :: y :: l) ++ [a; b]))
      with (x +:+ sep +:+ Py.join sep ((y :: l) ++ [a; b])).
    rewrite IH by done.
    change (Py.join sep (x :: y :: l)) with (x +:+ sep +:+ Py.join sep (y :: l)).
    by rewrite !string_app_assoc.
Qed.

Lemma last_two {A : Type} (l : list A) (a b : A) :
  2 ≤ length l →
  l !! (length l - 2) = Some a → l !! (length l - 1) = Some b →
  l = (take (length l - 2) l ++ [a; b])%list.
Proof.
  intros Hlen Ha Hb. rewrite <- (take_drop (length l - 2) l) at 1. f_equal.
  apply list_eq. intros [|[|i]]; rewrite lookup_drop; cbn.
  - by rewrite Nat.add_0_r.
  - rewrite <- Hb. f_equal. lia.
  - apply lookup_ge_None_2. lia.
Qed.

(** No token holds the separator. *)
Lemma split_tokens_clean (sep : ascii) (s t : string) :
  t ∈ Py.split sep s → Py.str_contains (String sep EmptyString) t = false.
Proof.
  revert t. induction s as [|c s IH]; intros t Ht.
  - apply list_elem_of_singleton in Ht as ->. reflexivity.
  - cbn [Py.split] in Ht. destruct (Ascii.eqb_spec c sep) as [->|Hc].
    + apply elem_of_cons in Ht as [->|Ht]; [reflexivity|by apply IH].
    + pose proof (split_nonempty sep s) as Hne.
      destruct (Py.split sep s) as [|w ws] eqn:E; [cbn in Hne; lia|].
      apply elem_of_cons in Ht as [->|Ht].
      * cbn [Py.str_contains String.prefix].
        destruct (ascii_dec sep c) as [->|_]; [done|].
        cbn [orb]. apply IH. by left.
      * apply IH. by right.
Qed.

(** A string without the separator is its only token. *)
Lemma split_clean (sep : ascii) (s : string) :
  Py.str_contains (String sep EmptyString) s = false → Py.split sep s = [s].
Proof.
  induction s as [|c s IH]; [done|]. cbn [Py.str_contains String.prefix Py.split].
  destruct (ascii_dec sep c) as [->|Hc]; [destruct s; discriminate|]. cbn [orb]. intros Hs.
  destruct (Ascii.eqb_spec c sep) as [->|_]; [done|]. by rewrite IH.
Qed.

(** The last token is an end of the string. *)
Lemma split_last_suffix (sep : ascii) (s t : string) :
  last (Py.split sep s) = Some t → ∃ pre, s = pre +:+ t.
Proof.
  revert t. induction s as [|c s IH]; intros t Ht.
  - injection Ht as <-. exists EmptyString; reflexivity.
  - cbn [Py.split] in Ht. pose proof (split_nonempty sep s) as Hne.
    destruct (Py.split sep s) as [|w ws] eqn:E; [cbn in Hne; lia|].
    destruct (Ascii.eqb c sep).
    + destruct (IH t Ht) as [pre ->]. exists (String c pre); reflexivity.
    + destruct ws as [|w' ws].
      * injection Ht as <-. pose proof (join_split sep s) as Hs.
        rewrite E in Hs. cbn in Hs. subst w. exists EmptyString; reflexivity.
      * destruct (IH t Ht) as [pre ->]. exists (String c pre); reflexivity.
Qed.

(** ** More on the location *)

(** X8: row 2 is the city, the source and the last token joined by single
    spaces (the source and the last token alone when there is no city
    token), and the station id is an end of the last token: no character of
    row 2 before the station id is dropped or reordered. *)
Theorem location_row2_recomposed (self self' : SQLiteResult) (loc : Location)
    (row2 : string) :
  tablular_data_by_name self "General" !! 2 = Some row2 →
  _extract_location self = Ok self' →
  _location self' = Some loc →
  ∃ last_token pre,
    last_token = pre +:+ station_id loc ∧
    (length (Py.split " " row2) = 2 → row2 = source loc +:+ " " +:+ last_token) ∧
    (2 < length (Py.split " " row2) →
       row2 = city loc +:+ " " +:+ source loc +:+ " " +:+ last_token).
Proof.
  intros H2 Hrun Hloc.
  apply extract_location_inv in Hrun
    as (row2' & src & lst & sta & lat & lon & tz & elev
        & H2' & Hsrc & Hlst & Hsta & _ & _ & _ & _ & ->);
    [|by intros E; rewrite E in H2].
  apply getitem_Ok in H2'. rewrite H2 in H2'. injection H2' as <-.
  injection Hloc as <-. cbn [city source station_id].
  apply getitem_neg_Ok in Hsrc as [Hlen Hsrc], Hlst as [_ Hlst], Hsta as [_ Hsta].
  assert (Hlast : last (Py.split "=" lst) = Some sta).
  { rewrite last_lookup, <- Hsta. f_equal. lia. }
  destruct (split_last_suffix _ _ _ Hlast) as [pre Hpre].
  exists lst, pre. split; [done|].
  pose proof (last_two _ _ _ (proj2 Hlen) Hsrc Hlst) as Htokens.
  pose proof (join_split " " row2) as Hjoin.
  unfold Py.slice_to_neg. set (tokens := Py.split " " row2) in *.
  split.
  - intros Htwo. rewrite Htokens, Htwo in Hjoin. by rewrite <- Hjoin.
  - intros Hmore. rewrite Htokens in Hjoin. rewrite join_snoc2 in Hjoin.
    + by rewrite <- Hjoin at 1.
    + intros E. apply (f_equal length) in E. rewrite length_take in E. cbn in E. lia.
Qed.

Lemma location_row2_recomposed_witness :
  ∃ last_token pre,
    last_token = pre +:+ "725300" ∧
    (length (Py.split " " "Chicago Ohare Intl Ap IL USA TMY3 WMO#=725300") = 2 →
       "Chicago Ohare Intl Ap IL USA TMY3 WMO#=725300" = "TMY3" +:+ " " +:+ last_token) ∧
    (2 < length (Py.split " " "Chicago Ohare Intl Ap IL USA TMY3 WMO#=725300") →
       "Chicago Ohare Intl Ap IL USA TMY3 WMO#=725300"
       = "Chicago Ohare Intl Ap IL USA" +:+ " " +:+ "TMY3" +:+ " " +:+ last_token).
Proof.
  exact (location_row2_recomposed (__init__ chicago_file)
           (mkSQLiteResult chicago_file
              (Some (mkLocation "Chicago Ohare Intl Ap IL USA" "TMY3" "725300"
                       "41.98" "-87.92" "-6.00" "201.00")))
           _ "Chicago Ohare Intl Ap IL USA TMY3 WMO#=725300" eq_refl eq_refl eq_refl).
Defined.

(** X9: the source of an extracted location holds no space and its station
    id holds no ['=']; when the last token of row 2 has no ['='] at all, the
    station id is that whole token. *)
Theorem location_tokens_clean (self self' : SQLiteResult) (loc : Location)
    (row2 : string) :
  tablular_data_by_name self "General" !! 2 = Some row2 →
  _extract_location self = Ok self' →
  _location self' = Some loc →
  Py.str_contains " " (source loc) = false ∧
  Py.str_contains "=" (station_id loc) = false ∧
  ∀ last_token, last (Py.split " " row2) = Some last_token →
    Py.str_contains "=" last_token = false → station_id loc = last_token.
Proof.
  intros H2 Hrun Hloc.
  apply extract_location_inv in Hrun
    as (row2' & src & lst & sta & lat & lon & tz & elev
        & H2' & Hsrc & Hlst & Hsta & _ & _ & _ & _ & ->);
    [|by intros E; rewrite E in H2].
  apply getitem_Ok in H2'. rewrite H2 in H2'. injection H2' as <-.
  injection Hloc as <-. cbn [source station_id].
  apply getitem_neg_Ok in Hsrc as [_ Hsrc], Hlst as [_ Hlst], Hsta as [_ Hsta].
  split; [|split].
  - apply (split_tokens_clean " " row2). by eapply list_elem_of_lookup_2.
  - apply (split_tokens_clean "=" lst). by eapply list_elem_of_lookup_2.
  - intros last_token Hlast Hclean. rewrite last_lookup in Hlast.
    replace (pred (length (Py.split " " row2))) with (length (Py.split " " row2) - 1)
      in Hlast by lia.
    rewrite Hlst in Hlast. injection Hlast as <-.
    rewrite (split_clean "=" lst Hclean) in Hsta. by injection Hsta as <-.
Qed.

Lemma location_tokens_clean_witness :
  Py.str_contains " " "TMY3" = false ∧ Py.str_contains "=" "725300" = false.
Proof.
  destruct (location_tokens_clean (__init__ chicago_file)
              (mkSQLiteResult chicago_file
                 (Some (mkLocation "Chicago Ohare Intl Ap IL USA" "TMY3" "725300"
                          "41.98" "-87.92" "-6.00" "201.00")))
              _ "Chicago Ohare Intl Ap IL USA TMY3 WMO#=725300" eq_refl eq_refl eq_refl)
    as (Hsource & Hstation & _).
  split; [exact Hsource|exact Hstation].
Defined.

(** X10: reading [location] again after a call that returned gives the same
    location and leaves the object as it is; the object still reads the same
    file, and what the call returned is what the object now holds. *)
Theorem location_read_again (self self' : SQLiteResult) (loc : option Location) :
  location self = Ok (loc, self') →
  location self' = Ok (loc, self') ∧
  file_path self' = file_path self ∧
  _location self' = loc.
Proof.
  unfold location. destruct (_location self) as [l|] eqn:Hcached.
  - intros [= <- <-]. by rewrite Hcached.
  - destruct (_extract_location self) as [self''|] eqn:Hrun; [|discriminate].
    cbn [bind]. intros [= <- <-].
    destruct (tablular_data_by_name self "General") as [|g0 general] eqn:Hgeneral.
    + unfold _extract_location in Hrun. rewrite Hgeneral in Hrun. injection Hrun as <-.
      rewrite Hcached. unfold _extract_location. rewrite Hgeneral. cbn [bind].
      by rewrite Hcached.
    + apply extract_location_inv in Hrun
        as (row2 & src & lst & sta & lat & lon & tz & elev & _ & _ & _ & _ & _ & _ & _ & _ & ->);
        [|by rewrite Hgeneral].
      done.
Qed.

Lemma location_read_again_witness :
  let loc := mkLocation "Chicago Ohare Intl Ap IL USA" "TMY3" "725300"
               "41.98" "-87.92" "-6.00" "201.00" in
  location (mkSQLiteResult chicago_file (Some loc))
  = Ok (Some loc, mkSQLiteResult chicago_file (Some loc)).
Proof.
  intros loc.
  exact (proj1 (location_read_again (__init__ chicago_file) _ _ chicago_location)).
Defined.

(** ** Design days *)

(** X11: [_check_desdays_in_report] answers true when there is no
    [Simulation Control] table, raises an [IndexError] when the table has
    one to three rows, and otherwise answers whether row 3 is exactly
    ['No']. *)
Theorem check_desdays_cases (self : SQLiteResult) :
  let sim_control := tablular_data_by_name self "Simulation Control" in
  (sim_control = [] → _check_desdays_in_report self = Ok true) ∧
  (sim_control ≠ [] → length sim_control < 4 →
     _check_desdays_in_report self = Raise IndexError) ∧
  (∀ row3, sim_control !! 3 = Some row3 →
     _check_desdays_in_report self = Ok (bool_decide (row3 = "No"))).
Proof.
  cbv zeta. unfold _check_desdays_in_report.
  destruct (tablular_data_by_name self "Simulation Control") as [|r0 rows] eqn:E.
  - split; [done|]. split; [done|]. intros row3 H3. discriminate.
  - split; [done|]. split.
    + intros _ Hlen. by rewrite getitem_short by lia.
    + intros row3 H3. rewrite (proj2 (getitem_Ok _ _ _) H3). cbn [bind].
      destruct (String.eqb_spec row3 "No") as [->|Hno].
      * by rewrite bool_decide_eq_true_2.
      * by rewrite bool_decide_eq_false_2.
Qed.

Lemma check_desdays_cases_witness :
  _check_desdays_in_report (__init__ hourly_file) = Ok true ∧
  _check_desdays_in_report (__init__ (sim_control_file (take 2 sim_control_rows)))
  = Raise IndexError ∧
  _check_desdays_in_report (__init__ (sim_control_file sim_control_rows)) = Ok true ∧
  _check_desdays_in_report (__init__ (sim_control_file ["No"; "No"; "No"; "Yes"; "Yes"]))
  = Ok false.
Proof.
  split; [|split; [|split]].
  - apply (proj1 (check_desdays_cases (__init__ hourly_file))). reflexivity.
  - apply (proj1 (proj2 (check_desdays_cases
                           (__init__ (sim_control_file (take 2 sim_control_rows))))));
      [discriminate|cbn; lia].
  - apply (proj2 (proj2 (check_desdays_cases (__init__ (sim_control_file sim_control_rows))))
             "No"). reflexivity.
  - apply (proj2 (proj2 (check_desdays_cases
                           (__init__ (sim_control_file ["No"; "No"; "No"; "Yes"; "Yes"]))))
             "Yes"). reflexivity.
Defined.

(** ** Data types *)

Lemma seq_contains_elem_of (x : string) (names : list string) :
  Py.seq_contains x names = true ↔ x ∈ names.
Proof.
  unfold Py.seq_contains. rewrite existsb_exists. split.
  - intros (y & Hy & Heq). apply String.eqb_eq in Heq as ->. by apply list_elem_of_In.
  - intros Hx. exists x. split; [by apply list_elem_of_In|apply String.eqb_refl].
Qed.

(** X12: the data type of a unit is the key of the first entry of the
    units table that lists the unit: a key that is returned lists the unit
    and no earlier entry does, and no key is returned exactly when no entry
    lists the unit. *)
Theorem data_type_from_unit_found (UNITS : list (string * list string))
    (from_unit : string) :
  (∀ key, _data_type_from_unit UNITS from_unit = Some key →
     ∃ i units, UNITS !! i = Some (key, units) ∧ from_unit ∈ units ∧
       ∀ j entry, j < i → UNITS !! j = Some entry → from_unit ∉ entry.2) ∧
  (_data_type_from_unit UNITS from_unit = None
   ↔ ∀ entry, entry ∈ UNITS → from_unit ∉ entry.2).
Proof.
  unfold _data_type_from_unit.
  induction UNITS as [|[k us] UNITS [IHsome IHnone]]; cbn [List.find].
  - split; [discriminate|]. split; [intros _ entry H; by apply elem_of_nil in H|done].
  - cbn [snd]. destruct (Py.seq_contains from_unit us) eqn:Hus.
    + apply seq_contains_elem_of in Hus. split.
      * intros key [= <-]. exists 0, us. split; [done|]. split; [done|]. intros j ? Hj. lia.
      * split; [discriminate|]. intros H. exfalso. apply (H (k, us)); [by left|done].
    + assert (Hnot : from_unit ∉ us).
      { intros Hin. apply seq_contains_elem_of in Hin. congruence. }
      split.
      * intros key Hkey. destruct (IHsome key Hkey) as (i & units & Hi & Hin & Hfirst).
        exists (S i), units. split; [done|]. split; [done|].
        intros [|j] entry Hj Hentry; [by injection Hentry as <-|].
        apply (Hfirst j); [lia|done].
      * rewrite IHnone. split.
        -- intros H entry [->|Hentry]%elem_of_cons; [done|by apply H].
        -- intros H entry Hentry. apply H. by right.
Qed.

Lemma data_type_from_unit_found_witness :
  ∃ i units, sample_UNITS !! i = Some ("Energy", units) ∧ "J" ∈ units ∧
    ∀ j entry, j < i → sample_UNITS !! j = Some entry → "J" ∉ entry.2.
Proof.
  exact (proj1 (data_type_from_unit_found sample_UNITS "J") "Energy" eq_refl).
Defined.

(** ** More on the data collections *)

Lemma getitem_neg_last {A : Type} (l : list A) (x : A) :
  Py.getitem_neg l 1 = Ok x ↔ last l = Some x.
Proof.
  rewrite getitem_neg_Ok, last_lookup.
  replace (pred (length l)) with (length l - 1) by lia. split.
  - by intros [_ ?].
  - intros H. split; [|done]. apply lookup_lt_Some in H. lia.
Qed.

(** A call that found its rows, its run period and its sequences returns
    them wrapped by the frequency. *)
Lemma data_collections_run (UNITS : list (string * list string)) (self : SQLiteResult)
    (output_name : OutputName) (row0 : DictionaryRow) (rows : list DictionaryRow)
    (first lst : DataRow float) (rp : AnalysisPeriod) (freq : ReportingFrequency)
    (all_values : list (list float)) :
  select_dictionary (file_path self) output_name = row0 :: rows →
  Py.getitem (select_data (file_path self) (ReportDataDictionaryIndex <$> row0 :: rows)) 0
    = Ok first →
  Py.getitem_neg (select_data (file_path self) (ReportDataDictionaryIndex <$> row0 :: rows)) 1
    = Ok lst →
  _extract_run_period self first.2 lst.2 = Ok (rp, freq) →
  reconstruction (header_units row0)
    (select_data (file_path self) (ReportDataDictionaryIndex <$> row0 :: rows))
    (length (row0 :: rows)) = Ok all_values →
  data_collections_by_output_name UNITS self output_name
  = let headers :=
      header_of_row output_name (_data_type_from_unit UNITS (header_units row0))
        (header_units row0) rp <$> row0 :: rows in
    match freq with
    | Steps _ => Ok (Collections (zip_with HourlyContinuousCollection headers all_values))
    | Named f =>
        if String.eqb f "Hourly"
        then Ok (Collections (zip_with HourlyContinuousCollection headers all_values))
        else if String.eqb f "Daily"
        then Ok (Collections (zip_with DailyCollection headers all_values))
        else if String.eqb f "Monthly"
        then Ok (Collections (zip_with MonthlyCollection headers all_values))
        else Ok (Values all_values)
    end.
Proof.
  intros Hrows Hfirst Hlast Hrun Hrec.
  unfold data_collections_by_output_name. rewrite Hrows, Hfirst, Hlast. cbn [bind].
  rewrite Hrun. cbn [bind]. fold (header_units row0).
  fold (reconstruction (header_units row0)
          (select_data (file_path self) (ReportDataDictionaryIndex <$> row0 :: rows))
          (length (row0 :: rows))).
  rewrite Hrec. reflexivity.
Qed.

Lemma reconstruction_blocks (units : string) (data : list (DataRow float)) (n q r : nat) :
  0 < n → r < n → length data = q * n + r →
  reconstruction units data n
  = Ok (Py.zip_star (blocks (λ val, value_in units (fst val)) data n
                       (if decide (r = 0) then q else S q))).
Proof.
  intros Hn Hr Hlen. unfold reconstruction, value_in.
  destruct (String.eqb units "kWh").
  - exact (convert_blocks data n q r Hn Hr Hlen).
  - exact (clean_blocks data n q r Hn Hr Hlen).
Qed.

(** X13: a request that matches no dictionary row returns the empty list
    without reading anything else; a request that matches rows for which
    there is no data row raises an [IndexError]. *)
Theorem data_collections_edges (UNITS : list (string * list string))
    (self : SQLiteResult) (output_name : OutputName) :
  (select_dictionary (file_path self) output_name = [] →
     data_collections_by_output_name UNITS self output_name = Ok (Collections [])) ∧
  (select_dictionary (file_path self) output_name ≠ [] →
   select_data (file_path self)
     (ReportDataDictionaryIndex <$> select_dictionary (file_path self) output_name) = [] →
     data_collections_by_output_name UNITS self output_name = Raise IndexError).
Proof.
  unfold data_collections_by_output_name. split.
  - by intros ->.
  - intros Hne Hdata.
    destruct (select_dictionary (file_path self) output_name) as [|row0 rows]; [done|].
    by rewrite Hdata.
Qed.

Lemma data_collections_edges_witness :
  data_collections_by_output_name sample_UNITS (__init__ chicago_file)
    (Name "Zone Mean Air Temperature") = Ok (Collections []) ∧
  data_collections_by_output_name sample_UNITS (__init__ no_data_file)
    (Name "Zone Mean Air Temperature") = Raise IndexError.
Proof.
  split.
  - apply (proj1 (data_collections_edges sample_UNITS (__init__ chicago_file)
                    (Name "Zone Mean Air Temperature"))). reflexivity.
  - apply (proj2 (data_collections_edges sample_UNITS (__init__ no_data_file)
                    (Name "Zone Mean Air Temperature"))); [discriminate|reflexivity].
Defined.

(** X14: when data collections are returned for [N] dictionary rows, there
    is at least one data row; there are [N] collections if the number of
    data rows is a multiple of [N], and as many as the remainder otherwise
    (the last channels are dropped); the collection at position [i] holds
    the values of the data rows [i], [i + N], [i + 2N], ..., in that order,
    divided by 3,600,000 when the label of the headers is kWh. *)
Theorem data_collections_shape (UNITS : list (string * list string))
    (self : SQLiteResult) (output_name : OutputName)
    (row0 : DictionaryRow) (rows : list DictionaryRow) (data_colls : list DataCollection) :
  select_dictionary (file_path self) output_name = row0 :: rows →
  data_collections_by_output_name UNITS self output_name = Ok (Collections data_colls) →
  let data := select_data (file_path self) (ReportDataDictionaryIndex <$> row0 :: rows) in
  let N := S (length rows) in
  0 < length data ∧
  length data_colls = (if decide (length data mod N = 0) then N else length data mod N) ∧
  ∀ i c, data_colls !! i = Some c →
    length (values c)
    = (if decide (length data mod N = 0) then length data / N else S (length data / N)) ∧
    ∀ j, j < length (values c) →
      values c !! j = (λ val, value_in (header_units row0) (fst val)) <$> data !! (i + j * N).
Proof.
  intros Hrows Hrun. cbv zeta.
  destruct (data_collections_inv UNITS self output_name row0 rows Hrows _ Hrun)
    as (first & lst & rp & freq & all_values & Hfirst & _ & _ & Hrec & Hout).
  set (data := select_data (file_path self) (ReportDataDictionaryIndex <$> row0 :: rows)) in *.
  set (N := S (length rows)).
  assert (Hpos : 0 < length data).
  { apply getitem_Ok, lookup_lt_Some in Hfirst. lia. }
  split; [exact Hpos|].
  destruct Hout as [Hout|(C & HC & Hout)]; [discriminate|].
  assert (Hcolls : data_colls
            = zip_with C
                (header_of_row output_name (_data_type_from_unit UNITS (header_units row0))
                   (header_units row0) rp <$> row0 :: rows) all_values)
    by congruence.
  clear Hout.
  assert (Hvalues : ∀ h v, values (C h v) = v).
  { intros h v. repeat (apply elem_of_cons in HC as [->|HC]; [done|]).
    by apply elem_of_nil in HC. }
  pose proof (Nat.div_mod_eq (length data) N) as Hdm.
  pose proof (Nat.mod_upper_bound (length data) N ltac:(lia)) as Hub.
  set (q := length data / N) in *. set (r := length data mod N) in *.
  change (length (row0 :: rows)) with N in Hrec.
  rewrite (reconstruction_blocks _ data N q r) in Hrec by lia.
  injection Hrec as Hrec.
  set (f := λ val : DataRow float, value_in (header_units row0) (fst val)) in *.
  assert (Hshape : ∃ w c,
            w = (if decide (r = 0) then N else r) ∧
            c = (if decide (r = 0) then q else S q) ∧
            length all_values = w ∧ w ≤ N ∧
            ∀ i, i < w → ∃ s, all_values !! i = Some s ∧ length s = c ∧
                   ∀ j, j < c → s !! j = f <$> data !! (i + j * N)).
  { destruct (decide (r = 0)) as [Hr|Hr].
    - destruct (zip_blocks f data N q N) as [Hl Hs]; [nia|lia| |by left|].
      + intros j i Hj Hi. nia.
      + exists N, q. rewrite <- Hrec. repeat (split; [done|]). exact Hs.
    - destruct (zip_blocks f data N (S q) r) as [Hl Hs]; [lia|lia| |right; lia|].
      + intros j i Hj Hi. nia.
      + exists r, (S q). rewrite <- Hrec. repeat (split; [done || lia|]). exact Hs. }
  destruct Hshape as (w & c & Hw & Hc & Hlen & HwN & Hseqs).
  rewrite <- Hw, <- Hc. split.
  - rewrite Hcolls, length_zip_with, length_fmap, Hlen. cbn [length]. fold N. lia.
  - intros i col Hcol. rewrite Hcolls in Hcol.
    apply lookup_zip_with_Some in Hcol as (h & v & -> & _ & Hv).
    rewrite Hvalues.
    assert (Hi : i < w) by (apply lookup_lt_Some in Hv; lia).
    destruct (Hseqs i Hi) as (s & Hs & Hsl & Hsv).
    rewrite Hv in Hs. injection Hs as <-. split; [done|].
    intros j Hj. apply Hsv. lia.
Qed.

Example ragged_collections :
  data_collections_by_output_name sample_UNITS (__init__ ragged_file)
    (Name "Zone Mean Air Temperature")
  = Ok (Collections
          [DailyCollection
             (header_of_row (Name "Zone Mean Air Temperature") (Some "Temperature") "C"
                (mkAnalysisPeriod 1 1 0 1 2 23 1 false)
                (mkDictionaryRow 7 "Zone" "ROOM_1" "Zone Mean Air Temperature" "C"))
             [21; 22]%float]).
Proof. vm_compute. reflexivity. Qed.

Lemma data_collections_shape_witness :
  length mixed_units_colls = 2 ∧
  length [DailyCollection
            (header_of_row (Name "Zone Mean Air Temperature") (Some "Temperature") "C"
               (mkAnalysisPeriod 1 1 0 1 2 23 1 false)
               (mkDictionaryRow 7 "Zone" "ROOM_1" "Zone Mean Air Temperature" "C"))
            [21; 22]%float] = 1.
Proof.
  split.
  - exact (proj1 (proj2 (data_collections_shape sample_UNITS (__init__ mixed_units_file)
                           (Name "Zone Ideal Loads Supply Air Total Cooling Energy")
                           _ _ _ eq_refl mixed_units_collections))).
  - exact (proj1 (proj2 (data_collections_shape sample_UNITS (__init__ ragged_file)
                           (Name "Zone Mean Air Temperature")
                           _ _ _ eq_refl ragged_collections))).
Defined.

Lemma Ok_inj {A : Type} (a b : A) : Ok a = Ok b → a = b.
Proof. by intros [= ->]. Qed.

(** X15: what is returned follows the interval code of the record of the
    first data row: continuous hourly collections for a code of at most 1,
    daily collections for code 2, monthly collections for code 3, and for
    code 4 the bare value sequences, not data collections. *)
Theorem data_collections_by_interval (UNITS : list (string * list string))
    (self : SQLiteResult) (output_name : OutputName)
    (row0 : DictionaryRow) (rows : list DictionaryRow)
    (first : DataRow float) (start : TimeRow) (out : Output) :
  select_dictionary (file_path self) output_name = row0 :: rows →
  select_data (file_path self) (ReportDataDictionaryIndex <$> row0 :: rows) !! 0 = Some first →
  select_time (file_path self) first.2 = Some start →
  data_collections_by_output_name UNITS self output_name = Ok out →
  match out with
  | Collections data_colls =>
      ((IntervalType start ≤ 1)%Z ∧ ∀ c, c ∈ data_colls → class_of c = Hourly) ∨
      (IntervalType start = 2%Z ∧ ∀ c, c ∈ data_colls → class_of c = Daily) ∨
      (IntervalType start = 3%Z ∧ ∀ c, c ∈ data_colls → class_of c = Monthly)
  | Values _ => IntervalType start = 4%Z
  end.
Proof.
  intros Hrows Hfirst Hstart Hrun.
  destruct (data_collections_inv UNITS self output_name row0 rows Hrows _ Hrun)
    as (first' & lst & rp & freq & all_values & Hfirst' & Hlast & Hperiod & Hrec & _).
  apply getitem_Ok in Hfirst' as Hf. rewrite Hfirst in Hf. injection Hf as <-.
  rewrite (data_collections_run UNITS self output_name row0 rows first lst rp freq all_values)
    in Hrun by done.
  apply extract_run_period_inv in Hperiod
    as (start' & end_ & tph & st_date & end_date & Hs & _ & Hint & _ & _ & _).
  rewrite Hstart in Hs. injection Hs as <-.
  assert (Hclass : ∀ (C : Header → list float → DataCollection) k
                     (headers : list Header) c,
            (∀ h v, class_of (C h v) = k) →
            c ∈ zip_with C headers all_values → class_of c = k).
  { intros C k headers c HC (h & v & -> & _)%elem_of_zip_with. apply HC. }
  cbv zeta in Hrun.
  destruct (decide (IntervalType start ≤ 1)%Z) as [Hty|Hty].
  - destruct (decide (Interval start = 0%Z)) as [Hz|Hnz].
    + rewrite interval_of_zero_step in Hint by done. discriminate.
    + rewrite interval_of_subhourly in Hint by done. injection Hint as <- _.
      apply Ok_inj in Hrun. subst out. left. split; [done|].
      intros c. by apply Hclass.
  - rewrite interval_of_table in Hint by lia.
    assert (∃ n, Z.to_nat (IntervalType start) = S (S n)) as [n Hn].
    { exists (Z.to_nat (IntervalType start) - 2). lia. }
    rewrite Hn in Hint.
    destruct n as [|[|[|n]]]; cbn in Hint; try discriminate;
      injection Hint as <- _; cbv [String.eqb Ascii.eqb Bool.eqb] in Hrun;
      apply Ok_inj in Hrun; subst out.
    + right. left. split; [lia|]. intros c. by apply Hclass.
    + right. right. split; [lia|]. intros c. by apply Hclass.
    + lia.
Qed.

Example annual_values :
  data_collections_by_output_name sample_UNITS (__init__ annual_file)
    (Name "Zone Ideal Loads Supply Air Total Heating Energy")
  = Ok (Values [[1]; [2]]%float).
Proof. vm_compute. reflexivity. Qed.

Lemma data_collections_by_interval_witness :
  IntervalType (mkTimeRow 2017 12 31 60 4) = 4%Z.
Proof.
  exact (data_collections_by_interval sample_UNITS (__init__ annual_file)
           (Name "Zone Ideal Loads Supply Air Total Heating Energy")
           _ _ (3600000%float, 1%Z) (mkTimeRow 2017 12 31 60 4) _
           eq_refl eq_refl eq_refl annual_values).
Defined.

(** X17: all returned data collections carry one and the same analysis
    period, the run period decoded from the time indices of the first and
    of the last data row, and no returned header has the unit J. *)
Theorem headers_share_run_period (UNITS : list (string * list string))
    (self : SQLiteResult) (output_name : OutputName)
    (row0 : DictionaryRow) (rows : list DictionaryRow) (data_colls : list DataCollection) :
  select_dictionary (file_path self) output_name = row0 :: rows →
  data_collections_by_output_name UNITS self output_name = Ok (Collections data_colls) →
  ∃ first lst rp freq,
    select_data (file_path self) (ReportDataDictionaryIndex <$> row0 :: rows) !! 0
      = Some first ∧
    last (select_data (file_path self) (ReportDataDictionaryIndex <$> row0 :: rows))
      = Some lst ∧
    _extract_run_period self first.2 lst.2 = Ok (rp, freq) ∧
    ∀ c, c ∈ data_colls → analysis_period (header c) = rp ∧ unit (header c) ≠ "J".
Proof.
  intros Hrows Hrun.
  destruct (data_collections_inv UNITS self output_name row0 rows Hrows _ Hrun)
    as (first & lst & rp & freq & all_values & Hfirst & Hlast & Hperiod & _ & Hout).
  exists first, lst, rp, freq.
  split; [by apply getitem_Ok|]. split; [by apply getitem_neg_last|]. split; [done|].
  destruct Hout as [Hout|(C & HC & Hout)]; [discriminate|].
  assert (Hcolls : data_colls
            = zip_with C
                (header_of_row output_name (_data_type_from_unit UNITS (header_units row0))
                   (header_units row0) rp <$> row0 :: rows) all_values)
    by congruence.
  intros c Hc. rewrite Hcolls in Hc.
  apply elem_of_zip_with in Hc as (h & v & -> & Hh & _).
  apply list_elem_of_fmap in Hh as (row & -> & _).
  assert (Hheader : ∀ h, header (C h v) = h).
  { intros h. repeat (apply elem_of_cons in HC as [->|HC]; [done|]).
    by apply elem_of_nil in HC. }
  rewrite Hheader. unfold header_of_row. cbn [analysis_period unit].
  split; [done|]. unfold header_units.
  destruct (String.eqb_spec (Units row0) "J") as [_|Hne]; cbn [negb]; [discriminate|done].
Qed.

Lemma headers_share_run_period_witness :
  ∃ first lst rp freq,
    select_data mixed_units_file (ReportDataDictionaryIndex <$> mixed_rows) !! 0 = Some first ∧
    last (select_data mixed_units_file (ReportDataDictionaryIndex <$> mixed_rows)) = Some lst ∧
    _extract_run_period (__init__ mixed_units_file) first.2 lst.2 = Ok (rp, freq) ∧
    ∀ c, c ∈ mixed_units_colls → analysis_period (header c) = rp ∧ unit (header c) ≠ "J".
Proof.
  exact (headers_share_run_period sample_UNITS (__init__ mixed_units_file)
           (Name "Zone Ideal Loads Supply Air Total Cooling Energy")
           _ _ _ eq_refl mixed_units_collections).
Defined.

(** ** Rows are grouped by position *)

(** X18: the reconstruction never reads the time index of a row: two row
    lists with the same value column, whatever their time indices, are
    rebuilt as the same sequences (or refused alike). Rows are assigned to
    channels by their position alone. *)
Theorem clean_timeseries_ignores_time_index {V : Type}
    (data1 data2 : list (DataRow V)) (n_lists : nat) :
  fst <$> data1 = fst <$> data2 →
  _clean_timeseries_data data1 n_lists = _clean_timeseries_data data2 n_lists.
Proof.
  intros Hvalues. unfold _clean_timeseries_data.
  assert (Hlen : length data1 = length data2).
  { pose proof (f_equal length Hvalues) as Hl. by rewrite !length_fmap in Hl. }
  rewrite Hlen. destruct (Py.range 0 (length data2) n_lists) as [starts|e]; [|done].
  cbn [bind]. do 2 f_equal. apply list_fmap_ext. intros _ i _.
  unfold Py.slice. by rewrite !fmap_take, !fmap_drop, Hvalues.
Qed.

Lemma clean_timeseries_ignores_time_index_witness :
  _clean_timeseries_data [(11, 1); (21, 1); (12, 2); (22, 2)]%Z 2
  = _clean_timeseries_data [(11, 7); (21, 3); (12, 9); (22, 0)]%Z 2.
Proof.
  apply (clean_timeseries_ignores_time_index
           [(11, 1); (21, 1); (12, 2); (22, 2)]%Z [(11, 7); (21, 3); (12, 9); (22, 0)]%Z 2).
  reflexivity.
Defined.

Lemma reconstruction_edges_witness :
  _clean_timeseries_data [(1%float, 1%Z)] 0 = Raise ValueError ∧
  _clean_and_convert_timeseries_data [(1%float, 1%Z)] 0 = Raise ValueError ∧
  _clean_timeseries_data ([] : list (DataRow float)) 3 = Ok [] ∧
  _clean_and_convert_timeseries_data [] 3 = Ok [].
Proof.
  destruct (reconstruction_edges [(1%float, 1%Z)] 3) as (Hclean & Hconvert & Hempty).
  split; [exact Hclean|]. split; [exact Hconvert|]. apply Hempty. lia.
Defined.

Lemma convert_follows_clean_witness :
  ∃ converted,
    _clean_and_convert_timeseries_data
      [(3600000%float, 1%Z); (7200000%float, 1%Z); (10800000%float, 2%Z); (14400000%float, 2%Z)]
      2 = Ok converted ∧
    length converted = length [[3600000; 10800000]; [7200000; 14400000]]%float.
Proof.
  destruct (proj2 (convert_follows_clean
                     [(3600000%float, 1%Z); (7200000%float, 1%Z);
                      (10800000%float, 2%Z); (14400000%float, 2%Z)] 2)
              [[3600000; 10800000]; [7200000; 14400000]]%float eq_refl)
    as (converted & Hrun & Hlen & _).
  exists converted. split; [exact Hrun|exact Hlen].
Defined.
